(** * Incremental stream-json parser: a shallow embedding and its properties

    Embedding of [src/agents/cli-runner/stream-json-parser.ts].

    - JavaScript strings are sequences of UTF-16 code units: [jsstring] is a
      list of code units, each an [N].
    - JavaScript numbers are IEEE 754 binary64 values: [number] is the
      Standard Library's [spec_float].
    - The mutable variables closed over by [createStreamJsonParser] ([buffer],
      [collectedTextParts], [sessionId], [usage]) form the record [State];
      every operation passes the state explicitly and returns, next to the new
      state, the list of observer calls it made, in order.
    - [JSON.parse] belongs to the host, not to the repository: the parser is
      defined over any decoder ([JsonDecoder]); a decoder for the JSON
      grammar ([Json.parse]) is used to run the code on concrete lines.
    - An observer is optional: [StreamJsonCallbacks] records which observers
      the caller supplied, and a call is made only to one that is there. *)

From Stdlib Require Import String Ascii.
From Stdlib Require Import List NArith ZArith Bool Lia.
From Stdlib Require Import Floats.SpecFloat.
Import ListNotations.


(** ** Strings *)

Definition code_unit := N.
Definition jsstring := list code_unit.

(** A literal: the code units of an ASCII string. *)
Definition lit (s : string) : jsstring :=
  map N_of_ascii (list_ascii_of_string s).

Arguments lit : simpl never.

Fixpoint str_eqb (a b : jsstring) : bool :=
  match a, b with
  | [], [] => true
  | x :: a', y :: b' => N.eqb x y && str_eqb a' b'
  | _, _ => false
  end.

(** ToBoolean on a string: only the empty string is falsy. *)
Definition str_truthy (s : jsstring) : bool :=
  match s with [] => false | _ :: _ => true end.

(** ECMAScript [WhiteSpace] and [LineTerminator] code points: what
    [String.prototype.trim] strips. *)
Definition isWhiteSpace (c : code_unit) : bool :=
  ((9 <=? c) && (c <=? 13) || (c =? 32) || (c =? 160) || (c =? 5760)
   || (8192 <=? c) && (c <=? 8202) || (c =? 8232) || (c =? 8233)
   || (c =? 8239) || (c =? 8287) || (c =? 12288) || (c =? 65279))%N.

Fixpoint trimStart (s : jsstring) : jsstring :=
  match s with
  | [] => []
  | c :: r => if isWhiteSpace c then trimStart r else s
  end.

Definition trimEnd (s : jsstring) : jsstring := rev (trimStart (rev s)).

Definition trim (s : jsstring) : jsstring := trimEnd (trimStart s).

Definition LF : code_unit := 10%N.

(** [s.split("\n")]: the pieces between line feeds; never an empty list. *)
Fixpoint split (s : jsstring) : list jsstring :=
  match s with
  | [] => [[]]
  | c :: r =>
      if N.eqb c LF then [] :: split r
      else match split r with
           | [] => [[c]]
           | l :: ls => (c :: l) :: ls
           end
  end.

(** [lines.pop()]: the last element (if any) and the list without it. *)
Fixpoint pop {A : Type} (l : list A) : option A * list A :=
  match l with
  | [] => (None, [])
  | [x] => (Some x, [])
  | x :: r => let (last, r') := pop r in (last, x :: r')
  end.

(** The nullish coalescing operator [a ?? b]. *)
Definition nullish {A : Type} (a b : option A) : option A :=
  match a with Some x => Some x | None => b end.

Notation "a ?? b" := (nullish a b) (at level 61, left associativity).

(** ** Numbers and JSON values *)

Definition number := spec_float.

Definition zero : number := S754_zero false.

(** [a > b] on numbers. *)
Definition number_gt (a b : number) : bool := SFltb b a.

(** ToBoolean on a number: zero (of either sign) and NaN are falsy. *)
Definition number_truthy (n : number) : bool :=
  match n with
  | S754_zero _ | S754_nan => false
  | _ => true
  end.

Unset Elimination Schemes.

Inductive JSON : Type :=
  | JNull
  | JBool (b : bool)
  | JNumber (n : number)
  | JString (s : jsstring)
  | JArray (items : list JSON)
  | JObject (fields : list (jsstring * JSON)).

Set Elimination Schemes.

(** A [Record<string, unknown>]: own properties, each key at most once. *)
Definition JsRecord := list (jsstring * JSON).

(** Property read [o[k]]; [None] is [undefined]. *)
Fixpoint get (o : JsRecord) (k : jsstring) : option JSON :=
  match o with
  | [] => None
  | (k', v) :: r => if str_eqb k' k then Some v else get r k
  end.

(** [isRecord(value)] together with the narrowing it gives. *)
Definition asRecord (value : option JSON) : option JsRecord :=
  match value with
  | Some (JObject fields) => Some fields
  | _ => None
  end.

Definition isRecord (value : option JSON) : bool :=
  match asRecord value with Some _ => true | None => false end.

(** [typeof v === "string"] together with the narrowing it gives. *)
Definition asString (value : option JSON) : option jsstring :=
  match value with
  | Some (JString s) => Some s
  | _ => None
  end.

(** [v === s] for a string [s]. *)
Definition strictEqStr (value : option JSON) (s : jsstring) : bool :=
  match value with
  | Some (JString s') => str_eqb s' s
  | _ => false
  end.

(** [v === true]. *)
Definition strictEqTrue (value : option JSON) : bool :=
  match value with
  | Some (JBool true) => true
  | _ => false
  end.

(** ToBoolean on any value that a property read can give. *)
Definition truthy (value : option JSON) : bool :=
  match value with
  | None | Some JNull => false
  | Some (JBool b) => b
  | Some (JNumber n) => number_truthy n
  | Some (JString s) => str_truthy s
  | Some (JArray _) | Some (JObject _) => true
  end.

(** The host's [JSON.parse]; [None] stands for a thrown [SyntaxError]. *)
Class JsonDecoder := { JSON_parse : jsstring -> option JSON }.

(** ** Usage conversion *)

Record CliUsage := {
  input : option number;
  output : option number;
  cacheRead : option number;
  cacheWrite : option number;
  total : option number
}.

Definition pick (raw : JsRecord) (key : string) : option number :=
  match get raw (lit key) with
  | Some (JNumber n) => if number_gt n zero then Some n else None
  | _ => None
  end.

(** [!x] for [x : number | undefined]. *)
Definition not_number (x : option number) : bool :=
  match x with
  | None => true
  | Some n => negb (number_truthy n)
  end.

Definition toUsage (raw : JsRecord) : option CliUsage :=
  let input := pick raw "input_tokens" ?? pick raw "inputTokens" in
  let output := pick raw "output_tokens" ?? pick raw "outputTokens" in
  let cacheRead :=
    pick raw "cache_read_input_tokens" ?? pick raw "cached_input_tokens"
      ?? pick raw "cacheRead" in
  let cacheWrite := pick raw "cache_write_input_tokens" ?? pick raw "cacheWrite" in
  let total := pick raw "total_tokens" ?? pick raw "total" in
  if not_number input && not_number output && not_number cacheRead
     && not_number cacheWrite && not_number total
  then None
  else Some {| input := input; output := output; cacheRead := cacheRead;
               cacheWrite := cacheWrite; total := total |}.

(** ** Parser state and observers *)

(** The variables of one parser instance. *)
Record State := {
  buffer : jsstring;
  collectedTextParts : list jsstring;
  sessionId : option jsstring;
  usage : option CliUsage
}.

(** The state [createStreamJsonParser] starts from. *)
Definition init : State :=
  {| buffer := []; collectedTextParts := []; sessionId := None; usage := None |}.

(** Which of the optional observers the caller supplied. *)
Record StreamJsonCallbacks := {
  onText : bool;
  onToolUse : bool;
  onSessionId : bool;
  onUsage : bool;
  onError : bool
}.

(** One call made to an observer, with its argument. *)
Inductive Call : Type :=
  | OnText (text : jsstring)
  | OnToolUse (name : jsstring)
  | OnSessionId (id : jsstring)
  | OnUsage (u : CliUsage)
  | OnError (message : jsstring).

(** A piece of parser code: it updates the state and calls observers. *)
Definition Action := State -> State * list Call.

Definition skip : Action := fun st => (st, []).

Definition seq (a b : Action) : Action :=
  fun st =>
    let (st1, calls1) := a st in
    let (st2, calls2) := b st1 in
    (st2, calls1 ++ calls2).

Notation "a ;; b" := (seq a b) (at level 62, right associativity).

(** [callbacks.onX?.(arg)]: the call happens when the observer is there. *)
Definition notify (present : bool) (c : Call) : Action :=
  fun st => (st, if present then [c] else []).

Definition set_buffer (b : jsstring) : Action :=
  fun st => ({| buffer := b; collectedTextParts := collectedTextParts st;
                sessionId := sessionId st; usage := usage st |}, []).

(** [collectedTextParts.push(text)]. *)
Definition push_text (text : jsstring) : Action :=
  fun st => ({| buffer := buffer st;
                collectedTextParts := collectedTextParts st ++ [text];
                sessionId := sessionId st; usage := usage st |}, []).

Definition set_sessionId (id : jsstring) : Action :=
  fun st => ({| buffer := buffer st; collectedTextParts := collectedTextParts st;
                sessionId := Some id; usage := usage st |}, []).

Definition set_usage (u : option CliUsage) : Action :=
  fun st => ({| buffer := buffer st; collectedTextParts := collectedTextParts st;
                sessionId := sessionId st; usage := u |}, []).

(** [!sessionId] for [sessionId : string | undefined]. *)
Definition no_sessionId (st : State) : bool :=
  match sessionId st with
  | None => true
  | Some s => negb (str_truthy s)
  end.

Section Parser.

Context {decoder : JsonDecoder}.
Variable callbacks : StreamJsonCallbacks.

(** Lines 97-100 and 106-109: the session id is taken from a string
    [session_id] whose trimmed value is not empty. *)
Definition capture_session_id (parsed : JsRecord) : Action :=
  fun st =>
    match asString (get parsed (lit "session_id")) with
    | Some session_id =>
        if str_truthy (trim session_id) then
          (set_sessionId (trim session_id) ;;
           notify (onSessionId callbacks) (OnSessionId (trim session_id))) st
        else skip st
    | None => skip st
    end.

(** Lines 110-115. *)
Definition capture_usage (parsed : JsRecord) : Action :=
  fun st =>
    match asRecord (get parsed (lit "usage")) with
    | Some raw =>
        let usage' := toUsage raw ?? usage st in
        (set_usage usage' ;;
         match usage' with
         | Some u => notify (onUsage callbacks) (OnUsage u)
         | None => skip
         end) st
    | None => skip st
    end.

(** Lines 117-124. *)
Definition fallback_text (parsed : JsRecord) : Action :=
  fun st =>
    match asString (get parsed (lit "result")) with
    | Some result =>
        if (length (collectedTextParts st) =? 0)%nat && str_truthy (trim result)
        then (push_text result ;; notify (onText callbacks) (OnText result)) st
        else skip st
    | None => skip st
    end.

(** Lines 125-127. *)
Definition report_error (parsed : JsRecord) : Action :=
  fun st =>
    match asString (get parsed (lit "result")) with
    | Some result =>
        if strictEqTrue (get parsed (lit "is_error"))
        then notify (onError callbacks) (OnError result) st
        else skip st
    | None => skip st
    end.

(** Lines 105-129: the four steps of a result event. *)
Definition process_result (parsed : JsRecord) : Action :=
  (fun st => (if no_sessionId st then capture_session_id parsed else skip) st) ;;
  capture_usage parsed ;;
  fallback_text parsed ;;
  report_error parsed.

(** Lines 74-129: what [processLine] does with a decoded record. *)
Definition processRecord (parsed : JsRecord) : Action :=
  fun st =>
    let type := match asString (get parsed (lit "type")) with
                | Some t => t
                | None => []
                end in
    match (if str_eqb type (lit "content_block_delta")
           then asRecord (get parsed (lit "delta")) else None) with
    | Some delta =>
        match (if strictEqStr (get delta (lit "type")) (lit "text_delta")
               then asString (get delta (lit "text")) else None) with
        | Some text => (push_text text ;; notify (onText callbacks) (OnText text)) st
        | None => skip st
        end
    | None =>
    match (if str_eqb type (lit "content_block_start")
           then asRecord (get parsed (lit "content_block")) else None) with
    | Some block =>
        match (if strictEqStr (get block (lit "type")) (lit "tool_use")
               then asString (get block (lit "name")) else None) with
        | Some name => notify (onToolUse callbacks) (OnToolUse name) st
        | None => skip st
        end
    | None =>
    if str_eqb type (lit "system") && no_sessionId st then
      capture_session_id parsed st
    else if str_eqb type (lit "result") then process_result parsed st
    else skip st
    end end.

Definition processLine (line : jsstring) : Action :=
  fun st =>
    let trimmed := trim line in
    if negb (str_truthy trimmed) then skip st
    else
      match JSON_parse trimmed with
      | None => skip st
      | Some parsed =>
          match asRecord (Some parsed) with
          | None => skip st
          | Some parsed => processRecord parsed st
          end
      end.

(** [for (const line of lines) processLine(line)]. *)
Fixpoint processLines (lines : list jsstring) : Action :=
  match lines with
  | [] => skip
  | line :: rest => processLine line ;; processLines rest
  end.

Definition feed (chunk : jsstring) : Action :=
  fun st =>
    let buffer1 := buffer st ++ chunk in
    let (last, lines) := pop (split buffer1) in
    (set_buffer (match last with Some l => l | None => [] end) ;;
     processLines lines) st.

Definition flush : Action :=
  fun st =>
    if str_truthy (trim (buffer st))
    then (processLine (buffer st) ;; set_buffer []) st
    else skip st.

End Parser.

Definition getCollectedText (st : State) : jsstring :=
  concat (collectedTextParts st).

Definition getSessionId (st : State) : option jsstring := sessionId st.

Definition getUsage (st : State) : option CliUsage := usage st.

(** ** A decoder for the JSON grammar

    A model of the host's [JSON.parse] (ECMA-404 / ECMA-262 25.5.1), used to
    run the parser on concrete lines.  The theorems below hold for every
    decoder and never look inside this one. *)

Module Json.

Local Open Scope N_scope.

Definition isJsonWs (c : code_unit) : bool :=
  (c =? 9) || (c =? 10) || (c =? 13) || (c =? 32).

Fixpoint skip_ws (s : jsstring) : jsstring :=
  match s with
  | [] => []
  | c :: r => if isJsonWs c then skip_ws r else s
  end.

Definition isDigit (c : code_unit) : bool := (48 <=? c) && (c <=? 57).

(** The leading decimal digits of [s]: their values, and the rest. *)
Fixpoint take_digits (s : jsstring) : list N * jsstring :=
  match s with
  | [] => ([], [])
  | c :: r =>
      if isDigit c
      then let (ds, rest) := take_digits r in ((c - 48) :: ds, rest)
      else ([], s)
  end.

Definition digits_value (ds : list N) : N :=
  fold_left (fun acc d => 10 * acc + d) ds 0.

(** The binary64 value nearest to [(-1)^neg * m * 10^e10]. *)
Definition decimal_to_number (neg : bool) (m : N) (e10 : Z) : number :=
  match m with
  | N0 => S754_zero neg
  | Npos p =>
      match e10 with
      | Zneg k =>
          SFdiv 53 1024 (S754_finite neg p 0)
                (S754_finite false (Pos.pow 10 k) 0)
      | _ =>
          binary_normalize 53 1024
            (if neg then Z.neg (p * Z.to_pos (10 ^ e10))
             else Z.pos (p * Z.to_pos (10 ^ e10))) 0 false
      end
  end.

(** [-? int frac? exp?]. *)
Definition parse_number (s : jsstring) : option (number * jsstring) :=
  let (neg, s1) := match s with
                   | c :: r => if c =? 45 then (true, r) else (false, s)
                   | [] => (false, s)
                   end in
  let int_part :=
    match s1 with
    | c :: r =>
        if c =? 48 then Some ([0], r)
        else if isDigit c then Some (take_digits s1)
        else None
    | [] => None
    end in
  match int_part with
  | None => None
  | Some (ints, s2) =>
      let frac_part :=
        match s2 with
        | c :: r =>
            if c =? 46 then
              match take_digits r with
              | ([], _) => None
              | (ds, rest) => Some (ds, rest)
              end
            else Some ([], s2)
        | [] => Some ([], s2)
        end in
      match frac_part with
      | None => None
      | Some (fracs, s3) =>
          let exp_part :=
            match s3 with
            | c :: r =>
                if (c =? 101) || (c =? 69) then
                  let (eneg, r1) :=
                    match r with
                    | c' :: r' =>
                        if c' =? 45 then (true, r')
                        else if c' =? 43 then (false, r')
                        else (false, r)
                    | [] => (false, r)
                    end in
                  match take_digits r1 with
                  | ([], _) => None
                  | (ds, rest) =>
                      let e := Z.of_N (digits_value ds) in
                      Some (if eneg then Z.opp e else e, rest)
                  end
                else Some (0%Z, s3)
            | [] => Some (0%Z, s3)
            end in
          match exp_part with
          | None => None
          | Some (e, s4) =>
              Some (decimal_to_number neg (digits_value (ints ++ fracs))
                      (e - Z.of_nat (List.length fracs))%Z, s4)
          end
      end
  end.

Definition hex_value (c : code_unit) : option N :=
  if isDigit c then Some (c - 48)
  else if (97 <=? c) && (c <=? 102) then Some (c - 87)
  else if (65 <=? c) && (c <=? 70) then Some (c - 55)
  else None.

Definition hex4 (a b c d : code_unit) : option code_unit :=
  match hex_value a, hex_value b, hex_value c, hex_value d with
  | Some x, Some y, Some z, Some w => Some (((x * 16 + y) * 16 + z) * 16 + w)
  | _, _, _, _ => None
  end.

Definition unescape (c : code_unit) : option code_unit :=
  if (c =? 34) || (c =? 92) || (c =? 47) then Some c
  else if c =? 98 then Some 8
  else if c =? 102 then Some 12
  else if c =? 110 then Some 10
  else if c =? 114 then Some 13
  else if c =? 116 then Some 9
  else None.

(** The characters of a string after its opening quote, up to the closing
    quote, and what follows it. *)
Fixpoint parse_string_chars (s : jsstring) : option (jsstring * jsstring) :=
  match s with
  | [] => None
  | c :: r =>
      if c =? 34 then Some ([], r)
      else if c =? 92 then
        match r with
        | [] => None
        | e :: r1 =>
            if e =? 117 then
              match r1 with
              | a :: b :: c' :: d :: r2 =>
                  match hex4 a b c' d, parse_string_chars r2 with
                  | Some u, Some (cs, rest) => Some (u :: cs, rest)
                  | _, _ => None
                  end
              | _ => None
              end
            else
              match unescape e, parse_string_chars r1 with
              | Some u, Some (cs, rest) => Some (u :: cs, rest)
              | _, _ => None
              end
        end
      else if c <? 32 then None
      else match parse_string_chars r with
           | Some (cs, rest) => Some (c :: cs, rest)
           | None => None
           end
  end.

(** [s] without the prefix [p], when it starts with it. *)
Fixpoint strip_prefix (p s : jsstring) : option jsstring :=
  match p, s with
  | [], _ => Some s
  | x :: p', y :: s' => if x =? y then strip_prefix p' s' else None
  | _ :: _, [] => None
  end.

(** A property definition: a repeated key keeps its place and takes the new
    value. *)
Fixpoint set_prop (k : jsstring) (v : JSON) (o : JsRecord) : JsRecord :=
  match o with
  | [] => [(k, v)]
  | (k', v') :: r =>
      if str_eqb k' k then (k', v) :: r else (k', v') :: set_prop k v r
  end.

Fixpoint parse_value (fuel : nat) (s : jsstring) : option (JSON * jsstring) :=
  match fuel with
  | O => None
  | S fuel' =>
      match skip_ws s with
      | [] => None
      | c :: r =>
          if c =? 123 then
            match skip_ws r with
            | c' :: r' =>
                if c' =? 125 then Some (JObject [], r')
                else parse_members fuel' [] r
            | [] => None
            end
          else if c =? 91 then
            match skip_ws r with
            | c' :: r' =>
                if c' =? 93 then Some (JArray [], r')
                else parse_elements fuel' [] r
            | [] => None
            end
          else if c =? 34 then
            match parse_string_chars r with
            | Some (str, rest) => Some (JString str, rest)
            | None => None
            end
          else if c =? 116 then
            option_map (fun rest => (JBool true, rest)) (strip_prefix (lit "rue") r)
          else if c =? 102 then
            option_map (fun rest => (JBool false, rest)) (strip_prefix (lit "alse") r)
          else if c =? 110 then
            option_map (fun rest => (JNull, rest)) (strip_prefix (lit "ull") r)
          else
            match parse_number (c :: r) with
            | Some (n, rest) => Some (JNumber n, rest)
            | None => None
            end
      end
  end

with parse_elements (fuel : nat) (acc : list JSON) (s : jsstring)
  : option (JSON * jsstring) :=
  match fuel with
  | O => None
  | S fuel' =>
      match parse_value fuel' s with
      | None => None
      | Some (v, r) =>
          match skip_ws r with
          | c :: r' =>
              if c =? 44 then parse_elements fuel' (v :: acc) r'
              else if c =? 93 then Some (JArray (rev (v :: acc)), r')
              else None
          | [] => None
          end
      end
  end

with parse_members (fuel : nat) (acc : JsRecord) (s : jsstring)
  : option (JSON * jsstring) :=
  match fuel with
  | O => None
  | S fuel' =>
      match skip_ws s with
      | c :: r =>
          if c =? 34 then
            match parse_string_chars r with
            | Some (k, r1) =>
                match skip_ws r1 with
                | c1 :: r2 =>
                    if c1 =? 58 then
                      match parse_value fuel' r2 with
                      | Some (v, r3) =>
                          match skip_ws r3 with
                          | c3 :: r4 =>
                              if c3 =? 44
                              then parse_members fuel' (set_prop k v acc) r4
                              else if c3 =? 125
                              then Some (JObject (set_prop k v acc), r4)
                              else None
                          | [] => None
                          end
                      | None => None
                      end
                    else None
                | [] => None
                end
            | None => None
            end
          else None
      | [] => None
      end
  end.

(** One JSON value, with nothing but white space after it. *)
Definition parse (s : jsstring) : option JSON :=
  match parse_value (2 * List.length s + 2) s with
  | Some (v, rest) =>
      match skip_ws rest with
      | [] => Some v
      | _ :: _ => None
      end
  | None => None
  end.

End Json.

#[global] Instance ecma_decoder : JsonDecoder := {| JSON_parse := Json.parse |}.

(** A text written with ['] wherever it has a double quote (code unit 34). *)
Definition js (s : string) : jsstring :=
  map (fun a => if N.eqb (N_of_ascii a) 39 then 34%N else N_of_ascii a)
      (list_ascii_of_string s).

(** [JSON.stringify(obj) + "\n"] of the tests, for a text given as above. *)
Definition line (s : string) : jsstring := js s ++ [LF].

(** A record's number as the decoder gives it for a decimal integer. *)
Definition num (n : N) : number := Json.decimal_to_number false n 0.

Definition all_callbacks : StreamJsonCallbacks :=
  {| onText := true; onToolUse := true; onSessionId := true;
     onUsage := true; onError := true |}.

Definition no_callbacks : StreamJsonCallbacks :=
  {| onText := false; onToolUse := false; onSessionId := false;
     onUsage := false; onError := false |}.

(** ** Vocabulary of the statements *)

(** [st] with its buffer replaced. *)
Definition with_buffer (b : jsstring) (st : State) : State :=
  {| buffer := b; collectedTextParts := collectedTextParts st;
     sessionId := sessionId st; usage := usage st |}.

(** An action that neither reads nor writes the buffer. *)
Definition buffer_blind (a : Action) : Prop :=
  forall b st, a (with_buffer b st) = (with_buffer b (fst (a st)), snd (a st)).

(** The complete lines of a text and its unterminated tail, as [feed]
    computes them. *)
Definition chop (s : jsstring) : option jsstring * list jsstring :=
  pop (split s).

(** Calling [feed] on each fragment in order. *)
Fixpoint feedAll {decoder : JsonDecoder} (callbacks : StreamJsonCallbacks)
  (fragments : list jsstring) : Action :=
  match fragments with
  | [] => skip
  | chunk :: rest => feed callbacks chunk ;; feedAll callbacks rest
  end.

(** The public operations that change a parser, and a history of them. *)
Inductive Op : Type :=
  | Feed (chunk : jsstring)
  | Flush.

Definition perform {decoder : JsonDecoder} (callbacks : StreamJsonCallbacks)
  (op : Op) : Action :=
  match op with
  | Feed chunk => feed callbacks chunk
  | Flush => flush callbacks
  end.

Fixpoint run {decoder : JsonDecoder} (callbacks : StreamJsonCallbacks)
  (ops : list Op) : Action :=
  match ops with
  | [] => skip
  | op :: rest => perform callbacks op ;; run callbacks rest
  end.

(** The record a line carries, when it decodes to one. *)
Definition event_of {decoder : JsonDecoder} (line : jsstring) : option JsRecord :=
  if str_truthy (trim line) then asRecord (JSON_parse (trim line)) else None.

(** The arguments of the calls made to each observer, in order. *)
Definition text_calls (calls : list Call) : list jsstring :=
  flat_map (fun c => match c with OnText t => [t] | _ => [] end) calls.

Definition session_calls (calls : list Call) : list jsstring :=
  flat_map (fun c => match c with OnSessionId i => [i] | _ => [] end) calls.

Definition usage_calls (calls : list Call) : list CliUsage :=
  flat_map (fun c => match c with OnUsage u => [u] | _ => [] end) calls.

Definition error_calls (calls : list Call) : list jsstring :=
  flat_map (fun c => match c with OnError m => [m] | _ => [] end) calls.

(** The discriminant [processLine] reads: the [type] field when it is a
    string, the empty string otherwise. *)
Definition event_type (parsed : JsRecord) : jsstring :=
  match asString (get parsed (lit "type")) with
  | Some t => t
  | None => []
  end.

(** The payload of a recognized text delta. *)
Definition text_delta_of (parsed : JsRecord) : option jsstring :=
  if str_eqb (event_type parsed) (lit "content_block_delta") then
    match asRecord (get parsed (lit "delta")) with
    | Some delta =>
        if strictEqStr (get delta (lit "type")) (lit "text_delta")
        then asString (get delta (lit "text")) else None
    | None => None
    end
  else None.

(** The name of a recognized tool-use start. *)
Definition tool_use_of (parsed : JsRecord) : option jsstring :=
  if str_eqb (event_type parsed) (lit "content_block_start") then
    match asRecord (get parsed (lit "content_block")) with
    | Some block =>
        if strictEqStr (get block (lit "type")) (lit "tool_use")
        then asString (get block (lit "name")) else None
    | None => None
    end
  else None.

Definition is_system (parsed : JsRecord) : bool :=
  str_eqb (event_type parsed) (lit "system").

Definition is_result (parsed : JsRecord) : bool :=
  str_eqb (event_type parsed) (lit "result").

(** The [result] field of a result event, when it is a string. *)
Definition result_string (parsed : JsRecord) : option jsstring :=
  if is_result parsed then asString (get parsed (lit "result")) else None.

(** The [result] field of a result event, when it is a string whose trimmed
    value is not empty: the text the fallback path can use. *)
Definition fallback_of (parsed : JsRecord) : option jsstring :=
  match result_string parsed with
  | Some r => if str_truthy (trim r) then Some r else None
  | None => None
  end.

(** The session id an event carries: its [session_id] field when that is a
    string whose trimmed value is not empty, trimmed. *)
Definition session_id_of (parsed : JsRecord) : option jsstring :=
  match asString (get parsed (lit "session_id")) with
  | Some raw => if str_truthy (trim raw) then Some (trim raw) else None
  | None => None
  end.

(** The fragments the fallback path adds in a state: the [result] string when
    nothing was collected and its trimmed value is not empty. *)
Definition fallback_fragments (parsed : JsRecord) (st : State) : list jsstring :=
  match asString (get parsed (lit "result")) with
  | Some result =>
      if (List.length (collectedTextParts st) =? 0)%nat && str_truthy (trim result)
      then [result] else []
  | None => []
  end.

(** The message a record reports as an error: its string [result] when
    [is_error] is exactly [true]. *)
Definition error_message (parsed : JsRecord) : option jsstring :=
  match asString (get parsed (lit "result")) with
  | Some result => if strictEqTrue (get parsed (lit "is_error")) then Some result else None
  | None => None
  end.

(** The calls an observer receives for a list of arguments: none when the
    observer is absent. *)
Definition delivered {A : Type} (present : bool) (args : list A) : list A :=
  if present then args else [].

(** A string with no white space at either end. *)
Definition no_outer_whitespace (s : jsstring) : Prop :=
  (forall c r, s = c :: r -> isWhiteSpace c = false) /\
  (forall r c, s = r ++ [c] -> isWhiteSpace c = false).

(** The first of a counter's alternate keys that is present in [raw] with a
    number strictly greater than zero. *)
Fixpoint resolve (raw : JsRecord) (alternates : list string) : option number :=
  match alternates with
  | [] => None
  | key :: rest =>
      match get raw (lit key) with
      | Some (JNumber n) => if number_gt n zero then Some n else resolve raw rest
      | _ => resolve raw rest
      end
  end.

Definition option_list {A : Type} (o : option A) : list A :=
  match o with Some x => [x] | None => [] end.

(** What a decoded record does in a state, effect by effect. *)

(** The fragments it appends to [collectedTextParts]: the payload of a text
    delta, or the fallback text of a result event. *)
Definition new_fragments (parsed : JsRecord) (st : State) : list jsstring :=
  match text_delta_of parsed with
  | Some text => [text]
  | None => if is_result parsed then fallback_fragments parsed st else []
  end.

(** The session id it establishes: on a system or result event, when none is
    set yet. *)
Definition new_session_id (parsed : JsRecord) (st : State) : option jsstring :=
  if (is_system parsed || is_result parsed) && no_sessionId st
  then session_id_of parsed else None.

(** The usage record stored after it. *)
Definition new_usage (parsed : JsRecord) (st : State) : option CliUsage :=
  if is_result parsed then
    match asRecord (get parsed (lit "usage")) with
    | Some raw => toUsage raw ?? usage st
    | None => usage st
    end
  else usage st.

(** The usage records it hands to the usage observer. *)
Definition usage_notified (parsed : JsRecord) (st : State) : list CliUsage :=
  if is_result parsed then
    match asRecord (get parsed (lit "usage")) with
    | Some raw => option_list (toUsage raw ?? usage st)
    | None => []
    end
  else [].

(** The error messages it reports. *)
Definition errors_reported (parsed : JsRecord) : list jsstring :=
  if is_result parsed then option_list (error_message parsed) else [].

(** The state after a decoded record and the calls it makes, put together
    from the effects above. *)
Definition record_effects (callbacks : StreamJsonCallbacks) (parsed : JsRecord)
  (st : State) : State * list Call :=
  ({| buffer := buffer st;
      collectedTextParts := collectedTextParts st ++ new_fragments parsed st;
      sessionId := match new_session_id parsed st with
                   | Some id => Some id
                   | None => sessionId st
                   end;
      usage := new_usage parsed st |},
   map OnToolUse (delivered (onToolUse callbacks) (option_list (tool_use_of parsed)))
   ++ map OnSessionId
        (delivered (onSessionId callbacks) (option_list (new_session_id parsed st)))
   ++ map OnUsage (delivered (onUsage callbacks) (usage_notified parsed st))
   ++ map OnText (delivered (onText callbacks) (new_fragments parsed st))
   ++ map OnError (delivered (onError callbacks) (errors_reported parsed))).

(** How the session id may move in one or more steps: it stays and its
    observer is not called, or it was unset and is set to the non-empty
    trimmed value of some field, the observer being called with it once. *)
Definition session_step (callbacks : StreamJsonCallbacks)
  (st st' : State) (calls : list Call) : Prop :=
  (sessionId st' = sessionId st /\ session_calls calls = []) \/
  (no_sessionId st = true /\
   exists raw, trim raw <> [] /\ sessionId st' = Some (trim raw) /\
     session_calls calls = delivered (onSessionId callbacks) [trim raw]).

(** How the collected text may move: fragments are appended, and the text
    observer receives exactly the appended fragments. *)
Definition text_step (callbacks : StreamJsonCallbacks)
  (st st' : State) (calls : list Call) : Prop :=
  exists new,
    collectedTextParts st' = collectedTextParts st ++ new /\
    text_calls calls = delivered (onText callbacks) new.

(** The payload of the text delta a line carries. *)
Definition line_delta {decoder : JsonDecoder} (line : jsstring) : option jsstring :=
  match event_of line with
  | Some parsed => text_delta_of parsed
  | None => None
  end.

(** The fallback text a line carries: on a result event, a [result] string
    whose trimmed value is not empty. *)
Definition line_fallback {decoder : JsonDecoder} (line : jsstring) : option jsstring :=
  match event_of line with
  | Some parsed => fallback_of parsed
  | None => None
  end.

Definition is_some {A : Type} (o : option A) : bool :=
  match o with Some _ => true | None => false end.

(** The number of recognized text deltas among the lines. *)
Definition count_deltas {decoder : JsonDecoder} (lines : list jsstring) : nat :=
  List.length (filter (fun l => is_some (line_delta l)) lines).

(** Some line carrying a fallback text comes before every text delta. *)
Fixpoint fallback_first {decoder : JsonDecoder} (lines : list jsstring) : bool :=
  match lines with
  | [] => false
  | l :: rest =>
      if is_some (line_delta l) then false
      else if is_some (line_fallback l) then true
      else fallback_first rest
  end.

(** Lines and a whole session of the repository's tests. *)

(** The line of a text delta with the given payload. *)
Definition delta_line (text : string) : jsstring :=
  js "{'type':'content_block_delta','index':0,'delta':{'type':'text_delta','text':'"
  ++ lit text ++ js "'}}" ++ [LF].

(** The end-to-end session of the tests. *)
Definition test_session : list Op :=
  [Feed (line "{'type':'system','subtype':'init','session_id':'abc-123'}");
   Feed (line "{'type':'content_block_start','index':0,'content_block':{'type':'text','text':''}}");
   Feed (delta_line "Hello"); Feed (delta_line ", "); Feed (delta_line "world!");
   Feed (line "{'type':'content_block_stop','index':0}");
   Feed (line "{'type':'message_stop'}");
   Feed (line "{'type':'result','subtype':'success','session_id':'abc-123','result':'Hello, world!','is_error':false,'usage':{'input_tokens':50,'output_tokens':10}}")].

(** The names handed to the tool-use observer, in order. *)
Definition tool_calls (calls : list Call) : list jsstring :=
  flat_map (fun c => match c with OnToolUse n => [n] | _ => [] end) calls.

(** The five counters of a usage record. *)
Definition counters (u : CliUsage) : list (option number) :=
  [input u; output u; cacheRead u; cacheWrite u; total u].

(** A usage record worth keeping: some counter is present, and every present
    counter is a number strictly greater than zero. *)
Definition meaningful (u : CliUsage) : Prop :=
  (exists n, In (Some n) (counters u)) /\
  (forall n, In (Some n) (counters u) -> number_gt n zero = true).

(** The stored usage record, when there is one, is meaningful. *)
Definition usage_ok (st : State) : Prop :=
  match usage st with
  | Some u => meaningful u
  | None => True
  end.

(** How the usage record may move in one or more steps: a stored record is
    never cleared, and from a state whose record is meaningful only
    meaningful records are stored or handed to the usage observer. *)
Definition usage_step (st st' : State) (calls : list Call) : Prop :=
  (usage st <> None -> usage st' <> None) /\
  (usage_ok st -> usage_ok st' /\ Forall meaningful (usage_calls calls)).

(** The text of complete lines, each followed by a line feed. *)
Definition terminated (lines : list jsstring) : jsstring :=
  concat (map (fun l => l ++ [LF]) lines).

(** Carriage return, as in a CRLF line ending. *)
Definition CR : code_unit := 13%N.

(** * Properties *)

(** ** Strings *)

Lemma str_eqb_eq (a b : jsstring) : str_eqb a b = true <-> a = b.
Proof.
  revert b; induction a as [|x a IH]; intros [|y b]; simpl; split;
    try congruence; try reflexivity.
  - rewrite andb_true_iff, N.eqb_eq, IH. intros [-> ->]; reflexivity.
  - intros H; injection H as -> ->. now rewrite N.eqb_refl, (proj2 (IH b)).
Qed.

Lemma str_eqb_refl (a : jsstring) : str_eqb a a = true.
Proof. now apply str_eqb_eq. Qed.

Lemma str_truthy_nonempty (s : jsstring) : str_truthy s = true <-> s <> [].
Proof. destruct s; simpl; split; congruence. Qed.

(** ** Lines of a text *)

Lemma split_nonempty (s : jsstring) : split s <> [].
Proof.
  induction s as [|c r IH]; simpl; [discriminate|].
  destruct (N.eqb c LF); [discriminate|].
  destruct (split r); discriminate.
Qed.

Lemma pop_cons {A : Type} (x : A) (l : list A) :
  l <> [] -> pop (x :: l) = (fst (pop l), x :: snd (pop l)).
Proof.
  destruct l as [|y l]; [congruence|]. intros _.
  change (pop (x :: y :: l)) with (let (last, r') := pop (y :: l) in (last, x :: r')).
  destruct (pop (y :: l)); reflexivity.
Qed.

Lemma pop_last_some {A : Type} (l : list A) : l <> [] -> fst (pop l) <> None.
Proof.
  induction l as [|x l IH]; [congruence|]. intros _.
  destruct l as [|y l]; [simpl; discriminate|].
  rewrite pop_cons by discriminate. simpl fst. apply IH. discriminate.
Qed.

Lemma chop_nil : chop [] = (Some [], []).
Proof. reflexivity. Qed.

Lemma chop_LF (r : jsstring) :
  chop (LF :: r) = (fst (chop r), [] :: snd (chop r)).
Proof.
  unfold chop. simpl split. apply pop_cons, split_nonempty.
Qed.

Lemma chop_other (c : code_unit) (r : jsstring) :
  N.eqb c LF = false ->
  chop (c :: r) =
    match chop r with
    | (Some last, []) => (Some (c :: last), [])
    | (last, l :: ls) => (last, (c :: l) :: ls)
    | (None, []) => (Some [c], [])
    end.
Proof.
  intros Hc. unfold chop. simpl split. rewrite Hc.
  destruct (split r) as [|l ls] eqn:E; [reflexivity|].
  destruct ls as [|l' ls]; [reflexivity|].
  rewrite (pop_cons (c :: l)), (pop_cons l) by discriminate.
  unfold jsstring, code_unit in *.
  destruct (pop (l' :: ls)) as [last rest]. cbn [fst snd].
  destruct last; reflexivity.
Qed.

Lemma chop_last_some (s : jsstring) : fst (chop s) <> None.
Proof. apply pop_last_some, split_nonempty. Qed.

(** Chopping [a ++ b] gives the lines of [a], then those of [a]'s tail
    followed by [b]. *)
Lemma chop_app (a b : jsstring) :
  forall la lsa, chop a = (Some la, lsa) ->
  chop (a ++ b) = (fst (chop (la ++ b)), lsa ++ snd (chop (la ++ b))).
Proof.
  induction a as [|c r IH]; intros la lsa.
  - rewrite chop_nil. intros H; injection H as <- <-. simpl.
    now destruct (chop b).
  - simpl app. destruct (N.eqb c LF) eqn:Hc.
    + apply N.eqb_eq in Hc; subst c. rewrite !chop_LF.
      destruct (chop r) as [lr lsr] eqn:Er. simpl.
      intros H; injection H as -> <-.
      rewrite (IH la lsr eq_refl). reflexivity.
    + rewrite !chop_other by exact Hc.
      destruct (chop r) as [lr lsr] eqn:Er.
      destruct lr as [lr|]; [|exfalso; apply (chop_last_some r); now rewrite Er].
      rewrite (IH lr lsr eq_refl).
      destruct lsr as [|l ls].
      * intros H; injection H as <- <-. simpl app.
        rewrite chop_other by exact Hc.
        destruct (chop (lr ++ b)) as [[x|] [|y ys]]; reflexivity.
      * intros H; injection H as <- <-. simpl.
        destruct (chop (lr ++ b)) as [[x|] ys]; reflexivity.
Qed.

(** ** Actions *)

Lemma seq_assoc (a b c : Action) (st : State) :
  ((a ;; b) ;; c) st = (a ;; b ;; c) st.
Proof.
  unfold seq. destruct (a st) as [st1 l1], (b st1) as [st2 l2], (c st2) as [st3 l3].
  now rewrite app_assoc.
Qed.

Lemma seq_skip_l (a : Action) (st : State) : (skip ;; a) st = a st.
Proof. unfold seq, skip. now destruct (a st). Qed.

Lemma seq_eq (a b : Action) (st : State) :
  (a ;; b) st = (fst (b (fst (a st))), snd (a st) ++ snd (b (fst (a st)))).
Proof. unfold seq. destruct (a st) as [st1 l1]; simpl. now destruct (b st1). Qed.

Section ParserFacts.

Context {decoder : JsonDecoder}.
Variable callbacks : StreamJsonCallbacks.

Lemma processLine_event (line : jsstring) (st : State) :
  processLine callbacks line st =
    match event_of line with
    | Some parsed => processRecord callbacks parsed st
    | None => skip st
    end.
Proof.
  unfold processLine, event_of.
  destruct (str_truthy (trim line)); simpl; [|reflexivity].
  destruct (JSON_parse (trim line)) as [[]|]; reflexivity.
Qed.

End ParserFacts.

Lemma lit_system_result : str_eqb (lit "system") (lit "result") = false.
Proof. reflexivity. Qed.

Lemma lit_delta_others :
  str_eqb (lit "content_block_delta") (lit "content_block_start") = false /\
  str_eqb (lit "content_block_delta") (lit "system") = false /\
  str_eqb (lit "content_block_delta") (lit "result") = false.
Proof. repeat split; reflexivity. Qed.

Lemma lit_start_others :
  str_eqb (lit "content_block_start") (lit "system") = false /\
  str_eqb (lit "content_block_start") (lit "result") = false.
Proof. repeat split; reflexivity. Qed.

Section Dispatch.

Context {decoder : JsonDecoder}.
Variable callbacks : StreamJsonCallbacks.

(** [processRecord] by cases on the kind of event; the cases exclude each
    other because the discriminants are distinct strings. *)
Lemma processRecord_cases (parsed : JsRecord) (st : State) :
  processRecord callbacks parsed st =
    match text_delta_of parsed with
    | Some text => (push_text text ;; notify (onText callbacks) (OnText text)) st
    | None =>
    match tool_use_of parsed with
    | Some name => notify (onToolUse callbacks) (OnToolUse name) st
    | None =>
    if is_system parsed then
      (if no_sessionId st then capture_session_id callbacks parsed st else skip st)
    else if is_result parsed then process_result callbacks parsed st
    else skip st
    end end.
Proof.
  unfold processRecord, text_delta_of, tool_use_of, is_system, is_result.
  fold (event_type parsed).
  destruct lit_delta_others as (Hds & Hdy & Hdr).
  destruct lit_start_others as (Hsy & Hsr).
  destruct (str_eqb (event_type parsed) (lit "content_block_delta")) eqn:Ed.
  - apply str_eqb_eq in Ed. rewrite Ed, Hds, Hdy, Hdr.
    destruct (asRecord (get parsed (lit "delta"))) as [delta|]; [|reflexivity].
    destruct (strictEqStr (get delta (lit "type")) (lit "text_delta")); [|reflexivity].
    destruct (asString (get delta (lit "text"))); reflexivity.
  - destruct (str_eqb (event_type parsed) (lit "content_block_start")) eqn:Es.
    + apply str_eqb_eq in Es. rewrite Es, Hsy, Hsr.
      destruct (asRecord (get parsed (lit "content_block"))) as [block|]; [|reflexivity].
      destruct (strictEqStr (get block (lit "type")) (lit "tool_use")); [|reflexivity].
      destruct (asString (get block (lit "name"))); reflexivity.
    + destruct (str_eqb (event_type parsed) (lit "system")) eqn:Ey.
      * apply str_eqb_eq in Ey. rewrite Ey, lit_system_result.
        destruct (no_sessionId st); reflexivity.
      * reflexivity.
Qed.

End Dispatch.

(** ** The buffer and the event handlers do not see each other *)

Lemma with_buffer_same (st : State) : with_buffer (buffer st) st = st.
Proof. now destruct st. Qed.

Lemma with_buffer_twice (b b' : jsstring) (st : State) :
  with_buffer b (with_buffer b' st) = with_buffer b st.
Proof. reflexivity. Qed.

Lemma blind_buffer (a : Action) (st : State) :
  buffer_blind a -> buffer (fst (a st)) = buffer st.
Proof.
  intros H. specialize (H (buffer st) st). rewrite with_buffer_same in H.
  rewrite H at 1. reflexivity.
Qed.

Lemma blind_skip : buffer_blind skip.
Proof. now intros b st. Qed.

Lemma blind_notify (present : bool) (c : Call) : buffer_blind (notify present c).
Proof. now intros b st. Qed.

Lemma blind_push_text (text : jsstring) : buffer_blind (push_text text).
Proof. now intros b st. Qed.

Lemma blind_set_sessionId (id : jsstring) : buffer_blind (set_sessionId id).
Proof. now intros b st. Qed.

Lemma blind_set_usage (u : option CliUsage) : buffer_blind (set_usage u).
Proof. now intros b st. Qed.

Lemma blind_seq (a1 a2 : Action) :
  buffer_blind a1 -> buffer_blind a2 -> buffer_blind (a1 ;; a2).
Proof.
  intros H1 H2 b st. rewrite !seq_eq, H1. cbn [fst snd]. rewrite H2. reflexivity.
Qed.

Create HintDb blind.

#[local] Hint Resolve blind_skip blind_notify blind_push_text blind_set_sessionId
  blind_set_usage blind_seq : blind.

Section Blind.

Context {decoder : JsonDecoder}.
Variable callbacks : StreamJsonCallbacks.

Lemma blind_capture_session_id (parsed : JsRecord) :
  buffer_blind (capture_session_id callbacks parsed).
Proof.
  intros b st. unfold capture_session_id.
  destruct (asString (get parsed (lit "session_id"))) as [sid|]; [|reflexivity].
  destruct (str_truthy (trim sid)); [|reflexivity].
  apply blind_seq; auto with blind.
Qed.

Lemma blind_capture_usage (parsed : JsRecord) :
  buffer_blind (capture_usage callbacks parsed).
Proof.
  intros b st. unfold capture_usage.
  destruct (asRecord (get parsed (lit "usage"))) as [raw|]; [|reflexivity].
  change (usage (with_buffer b st)) with (usage st).
  apply blind_seq; auto with blind.
  destruct (toUsage raw ?? usage st); auto with blind.
Qed.

Lemma blind_fallback_text (parsed : JsRecord) :
  buffer_blind (fallback_text callbacks parsed).
Proof.
  intros b st. unfold fallback_text.
  destruct (asString (get parsed (lit "result"))) as [r|]; [|reflexivity].
  change (collectedTextParts (with_buffer b st)) with (collectedTextParts st).
  destruct (_ && _); [|reflexivity].
  apply blind_seq; auto with blind.
Qed.

Lemma blind_report_error (parsed : JsRecord) :
  buffer_blind (report_error callbacks parsed).
Proof.
  intros b st. unfold report_error.
  destruct (asString (get parsed (lit "result"))) as [r|]; [|reflexivity].
  destruct (strictEqTrue _); reflexivity.
Qed.

Lemma blind_process_result (parsed : JsRecord) :
  buffer_blind (process_result callbacks parsed).
Proof.
  unfold process_result.
  repeat apply blind_seq;
    auto using blind_capture_usage, blind_fallback_text, blind_report_error.
  intros b st. change (no_sessionId (with_buffer b st)) with (no_sessionId st).
  destruct (no_sessionId st); [apply blind_capture_session_id | reflexivity].
Qed.

Lemma blind_processRecord (parsed : JsRecord) :
  buffer_blind (processRecord callbacks parsed).
Proof.
  intros b st. rewrite !processRecord_cases.
  destruct (text_delta_of parsed); [apply blind_seq; auto with blind|].
  destruct (tool_use_of parsed); [reflexivity|].
  change (no_sessionId (with_buffer b st)) with (no_sessionId st).
  destruct (is_system parsed).
  - destruct (no_sessionId st); [apply blind_capture_session_id | reflexivity].
  - destruct (is_result parsed); [apply blind_process_result | reflexivity].
Qed.

Lemma blind_processLine (line : jsstring) :
  buffer_blind (processLine callbacks line).
Proof.
  intros b st. rewrite !processLine_event.
  destruct (event_of line); [apply blind_processRecord | reflexivity].
Qed.

Lemma blind_processLines (lines : list jsstring) :
  buffer_blind (processLines callbacks lines).
Proof.
  induction lines as [|l ls IH]; simpl; auto using blind_seq, blind_processLine with blind.
Qed.

Lemma processLines_app (l1 l2 : list jsstring) (st : State) :
  processLines callbacks (l1 ++ l2) st =
    (processLines callbacks l1 ;; processLines callbacks l2) st.
Proof.
  revert st; induction l1 as [|l ls IH]; intros st; simpl.
  - now rewrite seq_skip_l.
  - rewrite seq_assoc. rewrite !(seq_eq (processLine callbacks l)). now rewrite IH.
Qed.

(** [feed] and [flush] written out: the new buffer, and the lines processed
    in the state they find. *)
Lemma feed_eq (chunk : jsstring) (st : State) :
  feed callbacks chunk st =
    let c := chop (buffer st ++ chunk) in
    (with_buffer (match fst c with Some l => l | None => [] end)
       (fst (processLines callbacks (snd c) st)),
     snd (processLines callbacks (snd c) st)).
Proof.
  unfold feed. fold (chop (buffer st ++ chunk)).
  destruct (chop (buffer st ++ chunk)) as [last lines]. cbn [fst snd].
  rewrite seq_eq. cbn [set_buffer fst snd app].
  fold (with_buffer (match last with Some l => l | None => [] end) st).
  now rewrite blind_processLines.
Qed.

Lemma flush_eq (st : State) :
  flush callbacks st =
    if str_truthy (trim (buffer st))
    then (with_buffer [] (fst (processLine callbacks (buffer st) st)),
          snd (processLine callbacks (buffer st) st))
    else (st, []).
Proof.
  unfold flush. destruct (str_truthy (trim (buffer st))); [|reflexivity].
  rewrite seq_eq. cbn [set_buffer fst snd]. now rewrite app_nil_r.
Qed.

(** Feeding [a] and then [b] is feeding [a ++ b]. *)
Lemma feed_app (a b : jsstring) (st : State) :
  (feed callbacks a ;; feed callbacks b) st = feed callbacks (a ++ b) st.
Proof.
  rewrite seq_eq, !feed_eq. cbn zeta. cbn [fst snd buffer with_buffer].
  destruct (chop (buffer st ++ a)) as [la lsa] eqn:Ea.
  destruct la as [la|]; [|exfalso; apply (chop_last_some (buffer st ++ a)); now rewrite Ea].
  rewrite app_assoc, (chop_app _ b _ _ Ea). cbn [fst snd].
  destruct (chop (la ++ b)) as [lb lsb]. cbn [fst snd].
  rewrite processLines_app, seq_eq, blind_processLines. cbn [fst snd].
  reflexivity.
Qed.

Lemma feedAll_concat (fragments : list jsstring) :
  forall first st,
    (feed callbacks first ;; feedAll callbacks fragments) st =
    feed callbacks (first ++ concat fragments) st.
Proof.
  induction fragments as [|f fs IH]; intros first st; simpl.
  - rewrite app_nil_r, seq_eq. cbn [skip fst snd]. rewrite app_nil_r.
    now destruct (feed callbacks first st).
  - rewrite <- seq_assoc, app_assoc, <- IH.
    rewrite (seq_eq (feed callbacks first ;; feed callbacks f)), feed_app.
    now rewrite <- seq_eq.
Qed.

Lemma feed_nil_init : feed callbacks [] init = (init, []).
Proof. reflexivity. Qed.

Lemma feedAll_init (fragments : list jsstring) :
  feedAll callbacks fragments init = feed callbacks (concat fragments) init.
Proof.
  change (concat fragments) with ([] ++ concat fragments).
  rewrite <- (feedAll_concat fragments [] init), seq_eq, feed_nil_init.
  cbn [fst snd app]. now destruct (feedAll callbacks fragments init).
Qed.

End Blind.

(** C1. Split invariance: for every stream cut into fragments in any way,
    feeding the fragments in order to a new parser and then flushing gives
    the same accumulated text, session id and usage record (indeed the same
    state and the same observer calls) as feeding the whole stream at once
    and then flushing. *)
Theorem C1_split_invariance :
  forall (decoder : JsonDecoder) (callbacks : StreamJsonCallbacks)
         (fragments : list jsstring),
    let piecewise := (feedAll callbacks fragments ;; flush callbacks) init in
    let whole := (feed callbacks (concat fragments) ;; flush callbacks) init in
    getCollectedText (fst piecewise) = getCollectedText (fst whole) /\
    getSessionId (fst piecewise) = getSessionId (fst whole) /\
    getUsage (fst piecewise) = getUsage (fst whole) /\
    fst piecewise = fst whole /\
    snd piecewise = snd whole.
Proof.
  intros decoder callbacks fragments piecewise whole.
  assert (E : piecewise = whole).
  { unfold piecewise, whole. now rewrite !seq_eq, feedAll_init. }
  rewrite E. repeat split.
Qed.

(** ** Usage conversion *)

Lemma number_gt_zero_truthy (n : number) :
  number_gt n zero = true -> number_truthy n = true.
Proof. destruct n as [[]|[]| |[] m e]; try reflexivity; discriminate. Qed.

Lemma pick_positive (raw : JsRecord) (key : string) (n : number) :
  pick raw key = Some n -> number_gt n zero = true.
Proof.
  unfold pick. destruct (get raw (lit key)) as [[| |m| | |]|]; try discriminate.
  destruct (number_gt m zero) eqn:E; [|discriminate]. now intros [= <-].
Qed.

Lemma resolve_positive (raw : JsRecord) (alternates : list string) (n : number) :
  resolve raw alternates = Some n -> number_gt n zero = true.
Proof.
  induction alternates as [|k ks IH]; simpl; [discriminate|].
  destruct (get raw (lit k)) as [[| |m| | |]|]; auto.
  destruct (number_gt m zero) eqn:E; auto. now intros [= <-].
Qed.

Lemma resolve_cons (raw : JsRecord) (key : string) (rest : list string) :
  resolve raw (key :: rest) = pick raw key ?? resolve raw rest.
Proof.
  unfold pick; simpl. destruct (get raw (lit key)) as [[| |m| | |]|]; try reflexivity.
  now destruct (number_gt m zero).
Qed.

Lemma nullish_none_r {A : Type} (a : option A) : a ?? None = a.
Proof. now destruct a. Qed.

Lemma not_number_resolve (raw : JsRecord) (alternates : list string) :
  not_number (resolve raw alternates) =
    match resolve raw alternates with None => true | Some _ => false end.
Proof.
  destruct (resolve raw alternates) as [n|] eqn:E; [|reflexivity].
  simpl. now rewrite (number_gt_zero_truthy _ (resolve_positive _ _ _ E)).
Qed.

(** What [resolve] finds: the value of some alternate, strictly positive,
    every alternate before it being absent, not a number, or not positive. *)
Lemma resolve_first (raw : JsRecord) (alternates : list string) (n : number) :
  resolve raw alternates = Some n <->
  exists before key after,
    alternates = before ++ key :: after /\
    get raw (lit key) = Some (JNumber n) /\ number_gt n zero = true /\
    forall k, In k before -> pick raw k = None.
Proof.
  induction alternates as [|k ks IH].
  - split; [discriminate|]. intros (before & key & after & E & _).
    now destruct before.
  - rewrite resolve_cons. split.
    + destruct (pick raw k) as [m|] eqn:Ek; simpl.
      * intros [= <-]. exists [], k, ks. repeat split; try easy.
        -- unfold pick in Ek. destruct (get raw (lit k)) as [[| |x| | |]|]; try discriminate.
           destruct (number_gt x zero); now inversion Ek.
        -- eapply pick_positive; eassumption.
      * intros H. apply IH in H as (before & key & after & -> & Hg & Hp & Hb).
        exists (k :: before), key, after. repeat split; auto.
        intros k' [<-|Hi]; auto.
    + intros (before & key & after & E & Hg & Hp & Hb).
      destruct before as [|b before]; simpl in E; injection E as -> ->.
      * unfold pick. now rewrite Hg, Hp.
      * rewrite (Hb b (or_introl eq_refl)). simpl. apply IH.
        exists before, key, after. repeat split; auto. intros k' Hi. apply Hb. now right.
Qed.

(** C7. Usage conversion resolves each of the five counters to the first of
    its alternate keys, in the fixed order, that is present with a number
    strictly greater than zero; it gives no record exactly when all five
    resolve to nothing, and otherwise the record of the resolved counters. *)
Theorem C7_toUsage_resolves :
  forall raw : JsRecord,
    let i := resolve raw ["input_tokens"; "inputTokens"]%string in
    let o := resolve raw ["output_tokens"; "outputTokens"]%string in
    let cr := resolve raw ["cache_read_input_tokens"; "cached_input_tokens";
                           "cacheRead"]%string in
    let cw := resolve raw ["cache_write_input_tokens"; "cacheWrite"]%string in
    let t := resolve raw ["total_tokens"; "total"]%string in
    (toUsage raw = None <->
       i = None /\ o = None /\ cr = None /\ cw = None /\ t = None) /\
    (toUsage raw <> None ->
       toUsage raw = Some {| input := i; output := o; cacheRead := cr;
                             cacheWrite := cw; total := t |}) /\
    (forall alternates n,
       resolve raw alternates = Some n <->
       exists before key after,
         alternates = before ++ key :: after /\
         get raw (lit key) = Some (JNumber n) /\ number_gt n zero = true /\
         forall k, In k before -> pick raw k = None).
Proof.
  intros raw i o cr cw t.
  assert (E : toUsage raw =
              if not_number i && not_number o && not_number cr
                 && not_number cw && not_number t
              then None
              else Some {| input := i; output := o; cacheRead := cr;
                           cacheWrite := cw; total := t |}).
  { unfold toUsage, i, o, cr, cw, t.
    rewrite !resolve_cons. simpl resolve. rewrite !nullish_none_r.
    assert (A : forall a b c : option number, a ?? (b ?? c) = a ?? b ?? c)
      by (now intros [] [] []).
    rewrite A. reflexivity. }
  unfold i, o, cr, cw, t in E. rewrite !not_number_resolve in E. fold i o cr cw t in E.
  split; [|split].
  - rewrite E. destruct i, o, cr, cw, t; simpl; split;
      try discriminate; try (intros (? & ? & ? & ? & ?); discriminate); auto.
  - rewrite E. destruct i, o, cr, cw, t; simpl; congruence.
  - intros alternates n. apply resolve_first.
Qed.

(** ** Trimming *)

Lemma trimStart_head (s : jsstring) (c : code_unit) (r : jsstring) :
  trimStart s = c :: r -> isWhiteSpace c = false.
Proof.
  induction s as [|x s IH]; simpl; [discriminate|].
  destruct (isWhiteSpace x) eqn:E; auto. now intros [= <- _].
Qed.

Lemma trimStart_suffix (s : jsstring) : exists p, s = p ++ trimStart s.
Proof.
  induction s as [|x s [p IH]]; simpl; [now exists []|].
  destruct (isWhiteSpace x); [|now exists []].
  exists (x :: p). simpl. now rewrite <- IH.
Qed.

Lemma trimStart_fixed (s : jsstring) :
  (forall c r, s = c :: r -> isWhiteSpace c = false) -> trimStart s = s.
Proof.
  destruct s as [|x s]; simpl; auto. intros H. now rewrite (H x s eq_refl).
Qed.

Lemma trim_no_outer_whitespace (s : jsstring) : no_outer_whitespace (trim s).
Proof.
  unfold trim, trimEnd. split.
  - intros c r E.
    destruct (trimStart_suffix (rev (trimStart s))) as [p Hp].
    apply (f_equal (@rev _)) in Hp. rewrite rev_involutive, rev_app_distr, E in Hp.
    simpl in Hp. eapply trimStart_head; eassumption.
  - intros r c E. apply (f_equal (@rev _)) in E.
    rewrite rev_involutive, rev_app_distr in E. simpl in E.
    eapply trimStart_head; eassumption.
Qed.

Lemma no_outer_whitespace_trim (s : jsstring) :
  no_outer_whitespace s -> trim s = s.
Proof.
  intros [Hh Hl]. unfold trim, trimEnd.
  rewrite (trimStart_fixed s Hh), trimStart_fixed; [apply rev_involutive|].
  intros c r E. apply (Hl (rev r) c).
  rewrite <- (rev_involutive s), E. reflexivity.
Qed.

Lemma trim_idempotent (s : jsstring) : trim (trim s) = trim s.
Proof. apply no_outer_whitespace_trim, trim_no_outer_whitespace. Qed.

(** ** Observer calls *)

Lemma text_calls_app (l1 l2 : list Call) :
  text_calls (l1 ++ l2) = text_calls l1 ++ text_calls l2.
Proof. apply flat_map_app. Qed.

Lemma session_calls_app (l1 l2 : list Call) :
  session_calls (l1 ++ l2) = session_calls l1 ++ session_calls l2.
Proof. apply flat_map_app. Qed.

Lemma usage_calls_app (l1 l2 : list Call) :
  usage_calls (l1 ++ l2) = usage_calls l1 ++ usage_calls l2.
Proof. apply flat_map_app. Qed.

Lemma error_calls_app (l1 l2 : list Call) :
  error_calls (l1 ++ l2) = error_calls l1 ++ error_calls l2.
Proof. apply flat_map_app. Qed.

Lemma in_text_calls (t : jsstring) (calls : list Call) :
  In (OnText t) calls <-> In t (text_calls calls).
Proof.
  unfold text_calls. rewrite in_flat_map. split.
  - intros H. exists (OnText t). split; [assumption | now left].
  - intros ([] & Hin & Hx); simpl in Hx; try contradiction.
    destruct Hx as [<-|[]]. assumption.
Qed.

Lemma in_session_calls (i : jsstring) (calls : list Call) :
  In (OnSessionId i) calls <-> In i (session_calls calls).
Proof.
  unfold session_calls. rewrite in_flat_map. split.
  - intros H. exists (OnSessionId i). split; [assumption | now left].
  - intros ([] & Hin & Hx); simpl in Hx; try contradiction.
    destruct Hx as [<-|[]]. assumption.
Qed.

Lemma in_usage_calls (u : CliUsage) (calls : list Call) :
  In (OnUsage u) calls <-> In u (usage_calls calls).
Proof.
  unfold usage_calls. rewrite in_flat_map. split.
  - intros H. exists (OnUsage u). split; [assumption | now left].
  - intros ([] & Hin & Hx); simpl in Hx; try contradiction.
    destruct Hx as [<-|[]]. assumption.
Qed.

Lemma in_error_calls (m : jsstring) (calls : list Call) :
  In (OnError m) calls <-> In m (error_calls calls).
Proof.
  unfold error_calls. rewrite in_flat_map. split.
  - intros H. exists (OnError m). split; [assumption | now left].
  - intros ([] & Hin & Hx); simpl in Hx; try contradiction.
    destruct Hx as [<-|[]]. assumption.
Qed.

Lemma flat_map_nil {A B : Type} (l : list A) :
  flat_map (fun _ => @nil B) l = [].
Proof. induction l; simpl; auto. Qed.

Lemma flat_map_single {A : Type} (l : list A) : flat_map (fun x => [x]) l = l.
Proof. induction l; simpl; congruence. Qed.

Lemma flat_map_of_map {A B C : Type} (f : B -> list C) (g : A -> B) (l : list A) :
  flat_map f (map g l) = flat_map (fun x => f (g x)) l.
Proof. induction l; simpl; congruence. Qed.

Ltac calls_simpl :=
  unfold text_calls, session_calls, usage_calls, error_calls;
  rewrite ?flat_map_app, ?flat_map_of_map; cbn beta iota;
  rewrite ?flat_map_nil, ?flat_map_single; cbn [app]; rewrite ?app_nil_r.

Lemma text_calls_effects (callbacks : StreamJsonCallbacks) (parsed : JsRecord) (st : State) :
  text_calls (snd (record_effects callbacks parsed st)) =
    delivered (onText callbacks) (new_fragments parsed st).
Proof. unfold record_effects. cbn [snd]. now calls_simpl. Qed.

Lemma session_calls_effects (callbacks : StreamJsonCallbacks) (parsed : JsRecord) (st : State) :
  session_calls (snd (record_effects callbacks parsed st)) =
    delivered (onSessionId callbacks) (option_list (new_session_id parsed st)).
Proof. unfold record_effects. cbn [snd]. now calls_simpl. Qed.

Lemma usage_calls_effects (callbacks : StreamJsonCallbacks) (parsed : JsRecord) (st : State) :
  usage_calls (snd (record_effects callbacks parsed st)) =
    delivered (onUsage callbacks) (usage_notified parsed st).
Proof. unfold record_effects. cbn [snd]. now calls_simpl. Qed.

Lemma error_calls_effects (callbacks : StreamJsonCallbacks) (parsed : JsRecord) (st : State) :
  error_calls (snd (record_effects callbacks parsed st)) =
    delivered (onError callbacks) (errors_reported parsed).
Proof. unfold record_effects. cbn [snd]. now calls_simpl. Qed.

(** ** Events exclude each other *)

Lemma text_delta_type (parsed : JsRecord) (t : jsstring) :
  text_delta_of parsed = Some t -> event_type parsed = lit "content_block_delta".
Proof.
  unfold text_delta_of.
  destruct (str_eqb (event_type parsed) (lit "content_block_delta")) eqn:E;
    [|discriminate]. intros _. now apply str_eqb_eq.
Qed.

Lemma tool_use_type (parsed : JsRecord) (n : jsstring) :
  tool_use_of parsed = Some n -> event_type parsed = lit "content_block_start".
Proof.
  unfold tool_use_of.
  destruct (str_eqb (event_type parsed) (lit "content_block_start")) eqn:E;
    [|discriminate]. intros _. now apply str_eqb_eq.
Qed.

Lemma is_system_type (parsed : JsRecord) :
  is_system parsed = true -> event_type parsed = lit "system".
Proof. apply str_eqb_eq. Qed.

Lemma is_result_type (parsed : JsRecord) :
  is_result parsed = true -> event_type parsed = lit "result".
Proof. apply str_eqb_eq. Qed.

(** The [type] field decides the discriminant. *)
Lemma event_type_field (parsed : JsRecord) (t : jsstring) :
  get parsed (lit "type") = Some (JString t) -> event_type parsed = t.
Proof. unfold event_type. now intros ->. Qed.

Lemma text_delta_excludes (parsed : JsRecord) (t : jsstring) :
  text_delta_of parsed = Some t ->
  tool_use_of parsed = None /\ is_system parsed = false /\ is_result parsed = false.
Proof.
  intros H. apply text_delta_type in H.
  unfold tool_use_of, is_system, is_result. rewrite H. repeat split.
Qed.

Lemma tool_use_excludes (parsed : JsRecord) (n : jsstring) :
  tool_use_of parsed = Some n ->
  text_delta_of parsed = None /\ is_system parsed = false /\ is_result parsed = false.
Proof.
  intros H. apply tool_use_type in H.
  unfold text_delta_of, is_system, is_result. rewrite H. repeat split.
Qed.

Lemma is_system_excludes (parsed : JsRecord) :
  is_system parsed = true ->
  text_delta_of parsed = None /\ tool_use_of parsed = None /\ is_result parsed = false.
Proof.
  intros H. apply is_system_type in H.
  unfold text_delta_of, tool_use_of, is_result. rewrite H. repeat split.
Qed.

Lemma is_result_excludes (parsed : JsRecord) :
  is_result parsed = true ->
  text_delta_of parsed = None /\ tool_use_of parsed = None /\ is_system parsed = false.
Proof.
  intros H. apply is_result_type in H.
  unfold text_delta_of, tool_use_of, is_system. rewrite H. repeat split.
Qed.

(** ** Each step of a result event, written out *)

Section Steps.

Context {decoder : JsonDecoder}.
Variable callbacks : StreamJsonCallbacks.

Lemma state_eta (st : State) :
  {| buffer := buffer st; collectedTextParts := collectedTextParts st;
     sessionId := sessionId st; usage := usage st |} = st.
Proof. now destruct st. Qed.

Lemma capture_session_id_eq (parsed : JsRecord) (st : State) :
  capture_session_id callbacks parsed st =
    ({| buffer := buffer st; collectedTextParts := collectedTextParts st;
        sessionId := match session_id_of parsed with
                     | Some id => Some id
                     | None => sessionId st
                     end;
        usage := usage st |},
     map OnSessionId (delivered (onSessionId callbacks)
                        (option_list (session_id_of parsed)))).
Proof.
  unfold capture_session_id, session_id_of.
  destruct (asString (get parsed (lit "session_id"))) as [raw|];
    [|now rewrite state_eta; destruct (onSessionId callbacks)].
  destruct (str_truthy (trim raw));
    [|now rewrite state_eta; destruct (onSessionId callbacks)].
  unfold seq, set_sessionId, notify, delivered.
  now destruct (onSessionId callbacks).
Qed.

Lemma capture_usage_eq (parsed : JsRecord) (st : State) :
  capture_usage callbacks parsed st =
    ({| buffer := buffer st; collectedTextParts := collectedTextParts st;
        sessionId := sessionId st;
        usage := match asRecord (get parsed (lit "usage")) with
                 | Some raw => toUsage raw ?? usage st
                 | None => usage st
                 end |},
     map OnUsage (delivered (onUsage callbacks)
                    match asRecord (get parsed (lit "usage")) with
                    | Some raw => option_list (toUsage raw ?? usage st)
                    | None => []
                    end)).
Proof.
  unfold capture_usage.
  destruct (asRecord (get parsed (lit "usage"))) as [raw|];
    [|now rewrite state_eta; destruct (onUsage callbacks)].
  unfold seq, set_usage, notify, delivered, skip.
  destruct (toUsage raw ?? usage st); now destruct (onUsage callbacks).
Qed.

Lemma fallback_text_eq (parsed : JsRecord) (st : State) :
  fallback_text callbacks parsed st =
    ({| buffer := buffer st;
        collectedTextParts := collectedTextParts st ++ fallback_fragments parsed st;
        sessionId := sessionId st; usage := usage st |},
     map OnText (delivered (onText callbacks) (fallback_fragments parsed st))).
Proof.
  unfold fallback_text, fallback_fragments.
  destruct (asString (get parsed (lit "result"))) as [r|];
    [|now rewrite app_nil_r, state_eta; destruct (onText callbacks)].
  destruct (_ && _);
    [|now rewrite app_nil_r, state_eta; destruct (onText callbacks)].
  unfold seq, push_text, notify, delivered.
  now destruct (onText callbacks).
Qed.

Lemma report_error_eq (parsed : JsRecord) (st : State) :
  report_error callbacks parsed st =
    (st, map OnError (delivered (onError callbacks)
                        (option_list (error_message parsed)))).
Proof.
  unfold report_error, error_message.
  destruct (asString (get parsed (lit "result"))) as [r|];
    [|now destruct (onError callbacks)].
  destruct (strictEqTrue _); unfold notify, skip, delivered;
    now destruct (onError callbacks).
Qed.

(** A decoded record does exactly what [record_effects] says. *)
Lemma processRecord_effects (parsed : JsRecord) (st : State) :
  processRecord callbacks parsed st = record_effects callbacks parsed st.
Proof.
  rewrite processRecord_cases. unfold record_effects.
  unfold new_fragments, new_session_id, new_usage, usage_notified, errors_reported.
  destruct (text_delta_of parsed) as [text|] eqn:Ed.
  { destruct (text_delta_excludes _ _ Ed) as (-> & -> & ->).
    unfold seq, push_text, notify, delivered. cbn.
    destruct (onToolUse callbacks), (onSessionId callbacks), (onUsage callbacks),
      (onText callbacks), (onError callbacks); reflexivity. }
  destruct (tool_use_of parsed) as [name|] eqn:Et.
  { destruct (tool_use_excludes _ _ Et) as (_ & -> & ->).
    unfold notify, delivered. cbn. rewrite app_nil_r, state_eta.
    destruct (onToolUse callbacks), (onSessionId callbacks), (onUsage callbacks),
      (onText callbacks), (onError callbacks); reflexivity. }
  destruct (is_system parsed) eqn:Ey.
  { destruct (is_system_excludes _ Ey) as (_ & _ & ->). cbn [orb andb].
    destruct (no_sessionId st).
    - rewrite capture_session_id_eq, app_nil_r. cbn.
      destruct (onToolUse callbacks), (onUsage callbacks),
        (onText callbacks), (onError callbacks); cbn; now rewrite ?app_nil_r.
    - cbn. rewrite app_nil_r, state_eta.
      destruct (onToolUse callbacks), (onSessionId callbacks), (onUsage callbacks),
        (onText callbacks), (onError callbacks); reflexivity. }
  destruct (is_result parsed) eqn:Er.
  - unfold process_result. rewrite !seq_eq.
    rewrite report_error_eq, fallback_text_eq, capture_usage_eq.
    cbn [fst snd buffer collectedTextParts sessionId usage orb andb].
    destruct (no_sessionId st).
    + rewrite capture_session_id_eq.
      cbn [fst snd buffer collectedTextParts sessionId usage].
      destruct (onToolUse callbacks); reflexivity.
    + cbn [skip fst snd app map option_list delivered].
      destruct (onToolUse callbacks), (onSessionId callbacks); reflexivity.
  - cbn. rewrite app_nil_r, state_eta.
    destruct (onToolUse callbacks), (onSessionId callbacks), (onUsage callbacks),
      (onText callbacks), (onError callbacks); reflexivity.
Qed.

End Steps.

(** ** From one record to whole histories *)

Section Lifting.

Context {decoder : JsonDecoder}.
Variable callbacks : StreamJsonCallbacks.

(** A relation between the state before, the state after and the calls made,
    that holds of doing nothing, composes, ignores the buffer and holds of
    every decoded record, holds of every operation of the parser. *)
Variable R : State -> State -> list Call -> Prop.
Hypothesis R_refl : forall st, R st st [].
Hypothesis R_trans :
  forall st1 st2 st3 l1 l2, R st1 st2 l1 -> R st2 st3 l2 -> R st1 st3 (l1 ++ l2).
Hypothesis R_buffer : forall b st, R st (with_buffer b st) [].
Hypothesis R_record :
  forall parsed st,
    R st (fst (processRecord callbacks parsed st))
      (snd (processRecord callbacks parsed st)).

Lemma lift_buffer (b : jsstring) (st st' : State) (calls : list Call) :
  R st st' calls -> R st (with_buffer b st') calls.
Proof.
  intros H. rewrite <- (app_nil_r calls). eapply R_trans; [exact H | apply R_buffer].
Qed.

Lemma lift_seq (a b : Action) :
  (forall st, R st (fst (a st)) (snd (a st))) ->
  (forall st, R st (fst (b st)) (snd (b st))) ->
  forall st, R st (fst ((a ;; b) st)) (snd ((a ;; b) st)).
Proof.
  intros Ha Hb st. rewrite seq_eq. cbn [fst snd]. eapply R_trans; [apply Ha | apply Hb].
Qed.

Lemma lift_processLine (line : jsstring) (st : State) :
  R st (fst (processLine callbacks line st)) (snd (processLine callbacks line st)).
Proof.
  rewrite processLine_event. destruct (event_of line); [apply R_record | apply R_refl].
Qed.

Lemma lift_processLines (lines : list jsstring) (st : State) :
  R st (fst (processLines callbacks lines st)) (snd (processLines callbacks lines st)).
Proof.
  revert st. induction lines as [|l ls IH]; intros st; simpl.
  - apply R_refl.
  - apply lift_seq; [apply lift_processLine | apply IH].
Qed.

Lemma lift_feed (chunk : jsstring) (st : State) :
  R st (fst (feed callbacks chunk st)) (snd (feed callbacks chunk st)).
Proof.
  rewrite feed_eq. cbn [fst snd]. apply lift_buffer, lift_processLines.
Qed.

Lemma lift_flush (st : State) :
  R st (fst (flush callbacks st)) (snd (flush callbacks st)).
Proof.
  rewrite flush_eq. destruct (str_truthy (trim (buffer st))); cbn [fst snd].
  - apply lift_buffer, lift_processLine.
  - apply R_refl.
Qed.

Lemma lift_run (ops : list Op) (st : State) :
  R st (fst (run callbacks ops st)) (snd (run callbacks ops st)).
Proof.
  revert st. induction ops as [|op ops IH]; intros st; simpl.
  - apply R_refl.
  - apply lift_seq; [|apply IH].
    intros st'. destruct op; [apply lift_feed | apply lift_flush].
Qed.

End Lifting.

(** ** The session id *)

Lemma no_sessionId_ext (st st' : State) :
  sessionId st' = sessionId st -> no_sessionId st' = no_sessionId st.
Proof. unfold no_sessionId. now intros ->. Qed.

Lemma session_id_of_trimmed (parsed : JsRecord) (id : jsstring) :
  session_id_of parsed = Some id ->
  exists raw, get parsed (lit "session_id") = Some (JString raw) /\
              id = trim raw /\ trim raw <> [].
Proof.
  unfold session_id_of.
  destruct (get parsed (lit "session_id")) as [[| | |raw| |]|]; try discriminate.
  simpl. destruct (str_truthy (trim raw)) eqn:E; [|discriminate].
  intros [= <-]. exists raw. repeat split. now apply str_truthy_nonempty.
Qed.

Section Session.

Context {decoder : JsonDecoder}.
Variable callbacks : StreamJsonCallbacks.

Lemma session_step_refl (st : State) : session_step callbacks st st [].
Proof. now left. Qed.

Lemma session_step_buffer (b : jsstring) (st : State) :
  session_step callbacks st (with_buffer b st) [].
Proof. now left. Qed.

Lemma session_step_trans (st1 st2 st3 : State) (l1 l2 : list Call) :
  session_step callbacks st1 st2 l1 -> session_step callbacks st2 st3 l2 ->
  session_step callbacks st1 st3 (l1 ++ l2).
Proof.
  unfold session_step. rewrite session_calls_app.
  intros [[E1 C1]|(N1 & raw1 & T1 & E1 & C1)] [[E2 C2]|(N2 & raw2 & T2 & E2 & C2)];
    rewrite C1, C2.
  - left. split; [congruence | reflexivity].
  - right. split; [now rewrite <- (no_sessionId_ext st1 st2 E1)|].
    exists raw2. repeat split; auto.
  - right. split; [assumption|]. exists raw1. rewrite app_nil_r.
    repeat split; auto. congruence.
  - exfalso. unfold no_sessionId in N2. rewrite E1 in N2.
    destruct (trim raw1); [congruence | discriminate].
Qed.

Lemma session_step_record (parsed : JsRecord) (st : State) :
  session_step callbacks st (fst (processRecord callbacks parsed st))
    (snd (processRecord callbacks parsed st)).
Proof.
  rewrite processRecord_effects. unfold session_step.
  rewrite session_calls_effects. unfold record_effects. cbn [fst sessionId].
  destruct (new_session_id parsed st) as [id|] eqn:E.
  - right. unfold new_session_id in E.
    destruct ((is_system parsed || is_result parsed) && no_sessionId st) eqn:B;
      [|discriminate].
    apply andb_true_iff in B as [_ B]. split; [assumption|].
    apply session_id_of_trimmed in E as (raw & _ & -> & Hne).
    exists raw. repeat split; auto.
  - left. split; [reflexivity | now destruct (onSessionId callbacks)].
Qed.

(** Every history of operations moves the session id by [session_step]. *)
Lemma session_step_run (ops : list Op) (st : State) :
  session_step callbacks st (fst (run callbacks ops st)) (snd (run callbacks ops st)).
Proof.
  apply lift_run.
  - apply session_step_refl.
  - apply session_step_trans.
  - apply session_step_buffer.
  - apply session_step_record.
Qed.

Lemma session_step_processLine (line : jsstring) (st : State) :
  session_step callbacks st (fst (processLine callbacks line st))
    (snd (processLine callbacks line st)).
Proof.
  apply lift_processLine; [apply session_step_refl | apply session_step_record].
Qed.

End Session.

Lemma in_delivered_one {A : Type} (present : bool) (x y : A) :
  In y (delivered present [x]) -> y = x.
Proof. destruct present; simpl; intuition. Qed.

Lemma trim_result_clean (raw : jsstring) :
  trim raw <> [] ->
  trim raw <> [] /\ no_outer_whitespace (trim raw) /\ trim (trim raw) = trim raw.
Proof.
  intros H. repeat split; try assumption;
    try apply (proj1 (trim_no_outer_whitespace raw));
    try apply (proj2 (trim_no_outer_whitespace raw)).
  apply trim_idempotent.
Qed.

Section SessionFacts.

Context {decoder : JsonDecoder}.
Variable callbacks : StreamJsonCallbacks.

(** A session id that is set and not empty survives every history, and no
    history calls the session-id observer again. *)
Lemma session_id_fixed (st : State) (id : jsstring) (ops : list Op) :
  sessionId st = Some id -> id <> [] ->
  sessionId (fst (run callbacks ops st)) = Some id /\
  session_calls (snd (run callbacks ops st)) = [].
Proof.
  intros Hs Hne.
  destruct (session_step_run callbacks ops st) as [[E C]|(N & _)].
  - split; [congruence | assumption].
  - exfalso. unfold no_sessionId in N. rewrite Hs in N.
    destruct id; [congruence | discriminate].
Qed.

(** From a new parser, the session id is unset and its observer was never
    called, or it is the trimmed non-empty value of a field and the observer
    was called with it once. *)
Lemma session_from_init (ops : list Op) :
  (sessionId (fst (run callbacks ops init)) = None /\
   session_calls (snd (run callbacks ops init)) = []) \/
  (exists raw, trim raw <> [] /\
     sessionId (fst (run callbacks ops init)) = Some (trim raw) /\
     session_calls (snd (run callbacks ops init)) =
       delivered (onSessionId callbacks) [trim raw]).
Proof.
  destruct (session_step_run callbacks ops init) as [[E C]|(_ & raw & H)].
  - left. split; assumption.
  - right. exists raw. exact H.
Qed.

(** The session aspect of one line. *)
Lemma processLine_session (line : jsstring) (st : State) :
  let r := processLine callbacks line st in
  match event_of line with
  | Some parsed =>
      sessionId (fst r) = match new_session_id parsed st with
                          | Some id => Some id
                          | None => sessionId st
                          end /\
      session_calls (snd r) =
        delivered (onSessionId callbacks) (option_list (new_session_id parsed st))
  | None => sessionId (fst r) = sessionId st /\ session_calls (snd r) = []
  end.
Proof.
  cbv zeta. rewrite processLine_event. destruct (event_of line) as [parsed|].
  - rewrite processRecord_effects, session_calls_effects. now split.
  - now split.
Qed.

End SessionFacts.

(** C10. Whenever the session id is set (whenever [getSessionId] gives a
    value, or the session-id observer is called), the string is the trimmed
    [session_id] field of the event that established it: it is not empty and
    has no white space at either end. *)
Theorem C10_session_id_is_trimmed :
  forall (decoder : JsonDecoder) (callbacks : StreamJsonCallbacks),
    (forall (ops : list Op) (id : jsstring),
        getSessionId (fst (run callbacks ops init)) = Some id \/
        In (OnSessionId id) (snd (run callbacks ops init)) ->
        id <> [] /\ no_outer_whitespace id /\ trim id = id) /\
    (forall (st : State) (line id : jsstring),
        (sessionId (fst (processLine callbacks line st)) = Some id /\
         sessionId st <> Some id) \/
        In (OnSessionId id) (snd (processLine callbacks line st)) ->
        exists parsed raw,
          event_of line = Some parsed /\
          get parsed (lit "session_id") = Some (JString raw) /\
          id = trim raw /\ id <> [] /\ no_outer_whitespace id).
Proof.
  intros decoder callbacks. split.
  - intros ops id H.
    destruct (session_from_init callbacks ops) as [[E C]|(raw & Hne & E & C)].
    + exfalso. destruct H as [H|H].
      * unfold getSessionId in H. congruence.
      * apply in_session_calls in H. now rewrite C in H.
    + assert (id = trim raw) as ->.
      { destruct H as [H|H].
        - unfold getSessionId in H. congruence.
        - apply in_session_calls in H. rewrite C in H.
          eapply in_delivered_one; eassumption. }
      now apply trim_result_clean.
  - intros st line id H.
    pose proof (processLine_session callbacks line st) as P. cbv zeta in P.
    destruct (event_of line) as [parsed|]; destruct P as [E C].
    + assert (N : new_session_id parsed st = Some id).
      { destruct H as [[H1 H2]|H].
        - rewrite E in H1. destruct (new_session_id parsed st); congruence.
        - apply in_session_calls in H. rewrite C in H.
          destruct (new_session_id parsed st) as [x|]; cbn [option_list] in H.
          + f_equal. symmetry. eapply in_delivered_one; eassumption.
          + now destruct (onSessionId callbacks). }
      unfold new_session_id in N.
      destruct ((is_system parsed || is_result parsed) && no_sessionId st);
        [|discriminate].
      apply session_id_of_trimmed in N as (raw & G & -> & Hne).
      exists parsed, raw. repeat split; auto;
        apply (trim_no_outer_whitespace raw).
    + exfalso. destruct H as [[H1 H2]|H].
      * congruence.
      * apply in_session_calls in H. now rewrite C in H.
Qed.

Lemma C10_witness :
  let l := js "{'type':'system','subtype':'init','session_id':'  sess-123 '}" in
  let ops := [Feed (l ++ [LF])] in
  (getSessionId (fst (run all_callbacks ops init)) = Some (lit "sess-123") /\
   lit "sess-123" <> [] /\ no_outer_whitespace (lit "sess-123") /\
   trim (lit "sess-123") = lit "sess-123") /\
  (exists parsed raw,
     event_of l = Some parsed /\
     get parsed (lit "session_id") = Some (JString raw) /\
     lit "sess-123" = trim raw /\ lit "sess-123" <> [] /\
     no_outer_whitespace (lit "sess-123")).
Proof.
  intros l ops. split.
  - assert (E : getSessionId (fst (run all_callbacks ops init)) = Some (lit "sess-123"))
      by (vm_compute; reflexivity).
    split; [exact E|].
    exact (proj1 (C10_session_id_is_trimmed ecma_decoder all_callbacks)
             ops (lit "sess-123") (or_introl E)).
  - apply (proj2 (C10_session_id_is_trimmed ecma_decoder all_callbacks) init l).
    left. split; [vm_compute; reflexivity | vm_compute; discriminate].
Defined.

Lemma event_type_system (parsed : JsRecord) :
  get parsed (lit "type") = Some (JString (lit "system")) -> is_system parsed = true.
Proof.
  intros H. unfold is_system. rewrite (event_type_field _ _ H). apply str_eqb_refl.
Qed.

Lemma event_type_result (parsed : JsRecord) :
  get parsed (lit "type") = Some (JString (lit "result")) -> is_result parsed = true.
Proof.
  intros H. unfold is_result. rewrite (event_type_field _ _ H). apply str_eqb_refl.
Qed.

Lemma is_result_field (parsed : JsRecord) :
  is_result parsed = true -> get parsed (lit "type") = Some (JString (lit "result")).
Proof.
  intros H. apply is_result_type in H. unfold event_type in H.
  destruct (get parsed (lit "type")) as [[| | |t| |]|]; simpl in H;
    try discriminate. now subst.
Qed.

Lemma session_id_of_field (parsed : JsRecord) (raw : jsstring) :
  get parsed (lit "session_id") = Some (JString raw) -> trim raw <> [] ->
  session_id_of parsed = Some (trim raw).
Proof.
  intros H Hne. unfold session_id_of. rewrite H. simpl.
  now rewrite (proj2 (str_truthy_nonempty _) Hne).
Qed.

(** C5. The session id is write-once.  In a parser whose session id is not
    set, a system or result event carrying a [session_id] string with a
    non-empty trimmed value sets it to that value and calls the session-id
    observer once; once it is set, no later operation changes it or calls the
    observer; over a parser's whole life the observer is called at most once.
    Example: init with "from-init", then a result with "from-result", leaves
    "from-init" and one call. *)
Theorem C5_session_id_write_once :
  (forall (decoder : JsonDecoder) (callbacks : StreamJsonCallbacks),
     (forall (st : State) (line : jsstring) (parsed : JsRecord) (raw : jsstring),
         sessionId st = None ->
         event_of line = Some parsed ->
         get parsed (lit "type") = Some (JString (lit "system")) \/
         get parsed (lit "type") = Some (JString (lit "result")) ->
         get parsed (lit "session_id") = Some (JString raw) ->
         trim raw <> [] ->
         sessionId (fst (processLine callbacks line st)) = Some (trim raw) /\
         session_calls (snd (processLine callbacks line st)) =
           delivered (onSessionId callbacks) [trim raw]) /\
     (forall (ops later : list Op) (id : jsstring),
         getSessionId (fst (run callbacks ops init)) = Some id ->
         getSessionId (fst (run callbacks later (fst (run callbacks ops init)))) = Some id /\
         session_calls (snd (run callbacks later (fst (run callbacks ops init)))) = []) /\
     (forall ops : list Op,
         List.length (session_calls (snd (run callbacks ops init))) <= 1)) /\
  (let ops :=
     [Feed (line "{'type':'system','subtype':'init','session_id':'from-init'}");
      Feed (line "{'type':'result','session_id':'from-result','result':'done'}")] in
   getSessionId (fst (run (decoder := ecma_decoder) all_callbacks ops init))
     = Some (lit "from-init") /\
   session_calls (snd (run (decoder := ecma_decoder) all_callbacks ops init))
     = [lit "from-init"]).
Proof.
  split; [|vm_compute; split; reflexivity].
  intros decoder callbacks. split; [|split].
  - intros st line parsed raw Hs He Ht Hf Hne.
    pose proof (processLine_session callbacks line st) as P. cbv zeta in P.
    rewrite He in P.
    assert (N : new_session_id parsed st = Some (trim raw)).
    { unfold new_session_id, no_sessionId. rewrite Hs.
      destruct Ht as [Ht|Ht].
      - rewrite (event_type_system _ Ht). now apply session_id_of_field.
      - rewrite (event_type_result _ Ht), orb_true_r. now apply session_id_of_field. }
    rewrite N in P. exact P.
  - intros ops later id Hs. unfold getSessionId in *.
    destruct (session_from_init callbacks ops) as [[E C]|(raw & Hne & E & C)];
      [congruence|].
    apply session_id_fixed; [assumption|]. congruence.
  - intros ops.
    destruct (session_from_init callbacks ops) as [[E C]|(raw & Hne & E & C)];
      rewrite C; [simpl; lia|].
    destruct (onSessionId callbacks); simpl; lia.
Qed.

Lemma C5_witness :
  let l := js "{'type':'result','session_id':' s-1 ','result':'done'}" in
  let ops := [Feed (line "{'type':'system','subtype':'init','session_id':'from-init'}")] in
  let later := [Feed (line "{'type':'result','session_id':'from-result','result':'done'}");
                Flush] in
  (sessionId (fst (processLine all_callbacks l init)) = Some (trim (lit " s-1 ")) /\
   session_calls (snd (processLine all_callbacks l init)) =
     delivered (onSessionId all_callbacks) [trim (lit " s-1 ")]) /\
  (getSessionId (fst (run all_callbacks later (fst (run all_callbacks ops init))))
     = Some (lit "from-init") /\
   session_calls (snd (run all_callbacks later (fst (run all_callbacks ops init)))) = []).
Proof.
  intros l ops later. split.
  - refine (proj1 (proj1 C5_session_id_write_once ecma_decoder all_callbacks)
              init l
              [(lit "type", JString (lit "result"));
               (lit "session_id", JString (lit " s-1 "));
               (lit "result", JString (lit "done"))]
              (lit " s-1 ") _ _ _ _ _).
    + reflexivity.
    + vm_compute; reflexivity.
    + right; vm_compute; reflexivity.
    + vm_compute; reflexivity.
    + vm_compute; discriminate.
  - apply (proj1 (proj2 (proj1 C5_session_id_write_once ecma_decoder all_callbacks))
             ops later (lit "from-init")).
    vm_compute. reflexivity.
Defined.

(** ** Usage on a result line *)

Section LineFacts.

Context {decoder : JsonDecoder}.
Variable callbacks : StreamJsonCallbacks.

Lemma processLine_effects (line : jsstring) (st : State) :
  processLine callbacks line st =
    match event_of line with
    | Some parsed => record_effects callbacks parsed st
    | None => (st, [])
    end.
Proof.
  rewrite processLine_event. destruct (event_of line); [|reflexivity].
  apply processRecord_effects.
Qed.

End LineFacts.

(** C2, as amended.  A result line whose usage object converts to no record
    leaves the stored usage record unchanged.  When no record is stored, the
    usage observer is not called; when a record is stored, the observer is
    called once more, with the stored record. *)
Theorem C2_empty_usage_keeps_record :
  forall (decoder : JsonDecoder) (callbacks : StreamJsonCallbacks)
         (st : State) (line : jsstring) (parsed raw : JsRecord),
    event_of line = Some parsed ->
    get parsed (lit "type") = Some (JString (lit "result")) ->
    get parsed (lit "usage") = Some (JObject raw) ->
    toUsage raw = None ->
    getUsage (fst (processLine callbacks line st)) = getUsage st /\
    usage_calls (snd (processLine callbacks line st)) =
      delivered (onUsage callbacks) (option_list (getUsage st)) /\
    (getUsage st = None -> usage_calls (snd (processLine callbacks line st)) = []).
Proof.
  intros decoder callbacks st line parsed raw He Ht Hu Hn.
  rewrite processLine_effects, He, usage_calls_effects.
  unfold record_effects, getUsage, new_usage, usage_notified. cbn [fst usage].
  rewrite (event_type_result _ Ht), Hu. cbn [asRecord]. rewrite Hn. cbn [nullish].
  repeat split. intros ->. now destruct (onUsage callbacks).
Qed.

Lemma C2_witness :
  let l := js "{'type':'result','usage':{'input_tokens':0,'output_tokens':-3}}" in
  getUsage (fst (processLine all_callbacks l init)) = getUsage init /\
  usage_calls (snd (processLine all_callbacks l init)) =
    delivered (onUsage all_callbacks) (option_list (getUsage init)) /\
  (getUsage init = None -> usage_calls (snd (processLine all_callbacks l init)) = []).
Proof.
  intros l.
  refine (C2_empty_usage_keeps_record ecma_decoder all_callbacks init l
            [(lit "type", JString (lit "result"));
             (lit "usage",
              JObject [(lit "input_tokens", JNumber (S754_zero false));
                       (lit "output_tokens",
                        JNumber (Json.decimal_to_number true 3 0))])]
            [(lit "input_tokens", JNumber (S754_zero false));
             (lit "output_tokens", JNumber (Json.decimal_to_number true 3 0))]
            _ _ _ _); vm_compute; reflexivity.
Defined.

(** C2 as stated fails: with a record already stored, a result line whose
    usage object has only zero and negative counters calls the usage observer
    (with the stored record). *)
Lemma C2_counterexample :
  let first := line "{'type':'result','usage':{'input_tokens':5}}" in
  let second := js "{'type':'result','usage':{'input_tokens':0,'output_tokens':-3}}" in
  let st := fst (feed all_callbacks first init) in
  let stored := {| input := Some (num 5); output := None; cacheRead := None;
                   cacheWrite := None; total := None |} in
  getUsage st = Some stored /\
  match event_of second with
  | Some parsed =>
      get parsed (lit "type") = Some (JString (lit "result")) /\
      match get parsed (lit "usage") with
      | Some (JObject raw) => toUsage raw = None
      | _ => False
      end
  | None => False
  end /\
  usage_calls (snd (processLine all_callbacks second st)) = [stored] /\
  ~ usage_calls (snd (processLine all_callbacks second st)) = [].
Proof.
  vm_compute. repeat split; discriminate.
Qed.

(** ** Flushing *)

Lemma str_truthy_false (s : jsstring) : str_truthy s = false <-> s = [].
Proof. destruct s; simpl; split; congruence. Qed.

(** C3, as amended.  After [flush] the buffer holds nothing but white space:
    it is empty when it held something else before the call, and it is left
    as it was (empty or white space only) otherwise, with no call made.
    Flushing with nothing pending, and flushing a second time, call no
    observer and change nothing. *)
Theorem C3_flush_leaves_no_content :
  forall (decoder : JsonDecoder) (callbacks : StreamJsonCallbacks) (st : State),
    trim (buffer (fst (flush callbacks st))) = [] /\
    (trim (buffer st) <> [] -> buffer (fst (flush callbacks st)) = []) /\
    (trim (buffer st) = [] -> flush callbacks st = (st, [])) /\
    (buffer st = [] -> flush callbacks st = (st, [])) /\
    flush callbacks (fst (flush callbacks st)) = (fst (flush callbacks st), []).
Proof.
  intros decoder callbacks st.
  assert (A : forall s, trim (buffer s) = [] -> flush callbacks s = (s, [])).
  { intros s H. rewrite flush_eq, H. reflexivity. }
  assert (B : trim (buffer (fst (flush callbacks st))) = []).
  { rewrite flush_eq. destruct (str_truthy (trim (buffer st))) eqn:E.
    - reflexivity.
    - now apply str_truthy_false. }
  repeat split; auto.
  - intros H. rewrite flush_eq.
    now rewrite (proj2 (str_truthy_nonempty _) H).
  - intros H. apply A. now rewrite H.
Qed.

Lemma C3_witness :
  let pending := fst (feed all_callbacks (js "{'type':'system','session_id':'s'}") init) in
  let blank := fst (feed all_callbacks [32%N; 9%N] init) in
  buffer (fst (flush all_callbacks pending)) = [] /\
  flush all_callbacks blank = (blank, []) /\
  flush all_callbacks init = (init, []).
Proof.
  intros pending blank. split; [|split].
  - apply (proj1 (proj2 (C3_flush_leaves_no_content ecma_decoder all_callbacks pending))).
    vm_compute. discriminate.
  - apply (proj1 (proj2 (proj2
             (C3_flush_leaves_no_content ecma_decoder all_callbacks blank)))).
    vm_compute. reflexivity.
  - apply (proj1 (proj2 (proj2 (proj2
             (C3_flush_leaves_no_content ecma_decoder all_callbacks init))))).
    reflexivity.
Defined.

(** C3 as stated fails: a buffer holding one space is not emptied. *)
Lemma C3_counterexample :
  let st := fst (feed all_callbacks [32%N] init) in
  buffer st = [32%N] /\
  buffer (fst (flush all_callbacks st)) = [32%N] /\
  ~ buffer (fst (flush all_callbacks st)) = [].
Proof.
  vm_compute. repeat split; discriminate.
Qed.

(** ** Errors *)

Lemma error_message_fields (parsed : JsRecord) (m : jsstring) :
  error_message parsed = Some m <->
  get parsed (lit "is_error") = Some (JBool true) /\
  get parsed (lit "result") = Some (JString m).
Proof.
  unfold error_message. split.
  - destruct (get parsed (lit "result")) as [[| | |r| |]|]; try discriminate.
    simpl. destruct (get parsed (lit "is_error")) as [[|[]| | | |]|];
      simpl; try discriminate. now intros [= ->].
  - intros [-> ->]. reflexivity.
Qed.

(** C4, as amended.  A result line whose [is_error] field is exactly [true]
    and whose [result] field is a string calls the error observer with that
    string; the error observer is called in no other circumstance; and
    whether it is called does not depend on the state, hence not on what the
    session-id, usage and fallback-text steps did on the same line. *)
Theorem C4_error_observer :
  forall (decoder : JsonDecoder) (callbacks : StreamJsonCallbacks) (line : jsstring),
    (forall (st : State) (parsed : JsRecord) (m : jsstring),
        event_of line = Some parsed ->
        get parsed (lit "type") = Some (JString (lit "result")) ->
        get parsed (lit "is_error") = Some (JBool true) ->
        get parsed (lit "result") = Some (JString m) ->
        error_calls (snd (processLine callbacks line st)) =
          delivered (onError callbacks) [m]) /\
    (forall (st : State) (m : jsstring),
        In (OnError m) (snd (processLine callbacks line st)) ->
        onError callbacks = true /\
        error_calls (snd (processLine callbacks line st)) = [m] /\
        exists parsed,
          event_of line = Some parsed /\
          get parsed (lit "type") = Some (JString (lit "result")) /\
          get parsed (lit "is_error") = Some (JBool true) /\
          get parsed (lit "result") = Some (JString m)) /\
    (forall st st' : State,
        error_calls (snd (processLine callbacks line st)) =
        error_calls (snd (processLine callbacks line st'))).
Proof.
  intros decoder callbacks line.
  assert (E : forall st,
             error_calls (snd (processLine callbacks line st)) =
               match event_of line with
               | Some parsed => delivered (onError callbacks) (errors_reported parsed)
               | None => []
               end).
  { intros st. rewrite processLine_effects. destruct (event_of line); [|reflexivity].
    apply error_calls_effects. }
  split; [|split].
  - intros st parsed m He Ht Hi Hr. rewrite E, He. unfold errors_reported.
    rewrite (event_type_result _ Ht).
    now rewrite (proj2 (error_message_fields parsed m) (conj Hi Hr)).
  - intros st m H. apply in_error_calls in H. rewrite E in *.
    destruct (event_of line) as [parsed|]; [|contradiction].
    unfold delivered in *. destruct (onError callbacks); [|contradiction].
    unfold errors_reported in *. destruct (is_result parsed) eqn:R; [|contradiction].
    destruct (error_message parsed) as [m'|] eqn:M; [|contradiction].
    destruct H as [->|[]]. split; [reflexivity|]. split; [reflexivity|].
    exists parsed. apply error_message_fields in M as [Hi Hr].
    repeat split; auto. now apply is_result_field.
  - intros st st'. now rewrite !E.
Qed.

Lemma C4_witness :
  let l := js "{'type':'result','subtype':'error','session_id':'s','result':'Something went wrong','is_error':true}" in
  error_calls (snd (processLine all_callbacks l init)) =
    delivered (onError all_callbacks) [lit "Something went wrong"] /\
  (onError all_callbacks = true /\
   error_calls (snd (processLine all_callbacks l init)) = [lit "Something went wrong"] /\
   exists parsed,
     event_of l = Some parsed /\
     get parsed (lit "type") = Some (JString (lit "result")) /\
     get parsed (lit "is_error") = Some (JBool true) /\
     get parsed (lit "result") = Some (JString (lit "Something went wrong"))).
Proof.
  intros l. split.
  - refine (proj1 (C4_error_observer ecma_decoder all_callbacks l) init
              [(lit "type", JString (lit "result"));
               (lit "subtype", JString (lit "error"));
               (lit "session_id", JString (lit "s"));
               (lit "result", JString (lit "Something went wrong"));
               (lit "is_error", JBool true)]
              (lit "Something went wrong") _ _ _ _); vm_compute; reflexivity.
  - apply (proj1 (proj2 (C4_error_observer ecma_decoder all_callbacks l)) init).
    vm_compute. right. right. left. reflexivity.
Defined.

(** C4 as stated fails: an error flag that is truthy without being [true]
    (here the number 1), next to a string [result], calls no error
    observer. *)
Lemma C4_counterexample :
  let l := js "{'type':'result','is_error':1,'result':'boom'}" in
  match event_of l with
  | Some parsed =>
      get parsed (lit "type") = Some (JString (lit "result")) /\
      truthy (get parsed (lit "is_error")) = true /\
      get parsed (lit "result") = Some (JString (lit "boom"))
  | None => False
  end /\
  error_calls (snd (processLine all_callbacks l init)) = [] /\
  ~ In (OnError (lit "boom")) (snd (processLine all_callbacks l init)).
Proof.
  repeat split; try (vm_compute; reflexivity).
  intros H. apply in_error_calls in H. vm_compute in H. exact H.
Qed.

(** ** Malformed lines *)

Lemma chop_line (l : jsstring) :
  ~ In LF l -> chop (l ++ [LF]) = (Some [], [l]).
Proof.
  induction l as [|c r IH]; intros H.
  - reflexivity.
  - simpl app. rewrite chop_other.
    + rewrite IH; [reflexivity|]. intros Hin. apply H. now right.
    + apply N.eqb_neq. intros ->. apply H. now left.
Qed.

(** C6. A completed line that fails to decode as JSON, or decodes to a value
    that is not an object, calls no observer and changes no state; the lines
    around it are processed as if it had not been delivered, also when it
    arrives through [feed] in several pieces. *)
Theorem C6_malformed_line_discarded :
  forall (decoder : JsonDecoder) (callbacks : StreamJsonCallbacks) (line : jsstring),
    JSON_parse (trim line) = None \/
    (exists v, JSON_parse (trim line) = Some v /\ isRecord (Some v) = false) ->
    (forall st : State, processLine callbacks line st = (st, [])) /\
    (forall (before after : list jsstring) (st : State),
        processLines callbacks (before ++ line :: after) st =
        processLines callbacks (before ++ after) st) /\
    (forall (st : State) (piece chunk : jsstring),
        buffer st ++ piece = line -> ~ In LF line ->
        feed callbacks (piece ++ LF :: chunk) st =
        feed callbacks chunk (with_buffer [] st)).
Proof.
  intros decoder callbacks line H.
  assert (N : event_of line = None).
  { unfold event_of. destruct (str_truthy (trim line)); [|reflexivity].
    destruct H as [->|(v & -> & Hv)]; [reflexivity|].
    unfold isRecord in Hv. now destruct (asRecord (Some v)). }
  assert (P : forall st, processLine callbacks line st = (st, [])).
  { intros st. now rewrite processLine_event, N. }
  split; [exact P|]. split.
  - intros before after st. rewrite !processLines_app, !seq_eq.
    cbn [processLines]. rewrite (seq_eq (processLine callbacks line)), P.
    reflexivity.
  - intros st piece chunk Hl Hn.
    change (piece ++ LF :: chunk) with (piece ++ [LF] ++ chunk).
    rewrite app_assoc, <- feed_app, seq_eq.
    assert (F : feed callbacks (piece ++ [LF]) st = (with_buffer [] st, [])).
    { rewrite feed_eq, app_assoc, Hl, (chop_line _ Hn). cbn [fst snd processLines].
      rewrite seq_eq, P. reflexivity. }
    rewrite F. cbn [fst snd app]. now destruct (feed callbacks chunk (with_buffer [] st)).
Qed.

Lemma C6_witness :
  let st := fst (feed all_callbacks (lit "{bro") init) in
  (forall st : State, processLine all_callbacks (lit "{broken") st = (st, [])) /\
  (forall st : State, processLine all_callbacks (lit "[1, 2]") st = (st, [])) /\
  feed all_callbacks (lit "ken" ++ LF :: delta_line "ok") st =
    feed all_callbacks (delta_line "ok") (with_buffer [] st).
Proof.
  intros st.
  assert (B : JSON_parse (trim (lit "{broken")) = None \/
              (exists v, JSON_parse (trim (lit "{broken")) = Some v /\
                         isRecord (Some v) = false))
    by (left; vm_compute; reflexivity).
  split; [|split].
  - apply (C6_malformed_line_discarded ecma_decoder all_callbacks (lit "{broken") B).
  - apply (C6_malformed_line_discarded ecma_decoder all_callbacks (lit "[1, 2]")).
    right. eexists. split; vm_compute; reflexivity.
  - apply (proj2 (proj2 (C6_malformed_line_discarded ecma_decoder all_callbacks
                           (lit "{broken") B))).
    + vm_compute. reflexivity.
    + vm_compute. intuition discriminate.
Defined.

(** ** Collected text *)

Lemma pop_snoc {A : Type} (l ls : list A) (last : A) :
  pop l = (Some last, ls) -> l = ls ++ [last].
Proof.
  revert ls. induction l as [|x l IH]; intros ls; [discriminate|].
  destruct l as [|y l].
  - simpl. now intros [= -> <-].
  - rewrite pop_cons by discriminate.
    destruct (pop (y :: l)) as [o r] eqn:E. cbn [fst snd].
    intros [= -> <-]. simpl. f_equal. now apply IH.
Qed.

Lemma length_zero_nil {A : Type} (l : list A) :
  (List.length l =? 0)%nat = true <-> l = [].
Proof. destruct l; simpl; split; congruence. Qed.

Lemma fallback_fragments_one (parsed : JsRecord) (st : State) (t : jsstring) :
  fallback_fragments parsed st = [t] <->
  collectedTextParts st = [] /\
  get parsed (lit "result") = Some (JString t) /\ trim t <> [].
Proof.
  unfold fallback_fragments. split.
  - destruct (get parsed (lit "result")) as [[| | |r| |]|]; try discriminate.
    cbn [asString].
    destruct ((List.length (collectedTextParts st) =? 0)%nat) eqn:L;
      [|discriminate].
    destruct (str_truthy (trim r)) eqn:T; [|discriminate].
    cbn [andb]. intros [= ->]. repeat split.
    + now apply length_zero_nil.
    + now apply str_truthy_nonempty.
  - intros (Hp & -> & Ht). cbn [asString].
    rewrite (proj2 (length_zero_nil _) Hp), (proj2 (str_truthy_nonempty _) Ht).
    reflexivity.
Qed.

Lemma fallback_fragments_cases (parsed : JsRecord) (st : State) :
  fallback_fragments parsed st = [] \/ exists t, fallback_fragments parsed st = [t].
Proof.
  unfold fallback_fragments.
  destruct (asString (get parsed (lit "result"))) as [r|]; [|now left].
  destruct (_ && _); [right; now exists r | now left].
Qed.

(** The fragments a record appends, when it is not a text delta. *)
Lemma new_fragments_fallback (parsed : JsRecord) (st : State) :
  text_delta_of parsed = None ->
  new_fragments parsed st =
    if (List.length (collectedTextParts st) =? 0)%nat
    then option_list (fallback_of parsed) else [].
Proof.
  intros H. unfold new_fragments, fallback_of, result_string, fallback_fragments.
  rewrite H. destruct (is_result parsed).
  - destruct (asString (get parsed (lit "result"))) as [r|].
    + destruct (List.length (collectedTextParts st) =? 0)%nat,
        (str_truthy (trim r)); reflexivity.
    + now destruct (List.length (collectedTextParts st) =? 0)%nat.
  - now destruct (List.length (collectedTextParts st) =? 0)%nat.
Qed.

Section Text.

Context {decoder : JsonDecoder}.
Variable callbacks : StreamJsonCallbacks.

Lemma text_step_refl (st : State) : text_step callbacks st st [].
Proof.
  exists []. split; [now rewrite app_nil_r | now destruct (onText callbacks)].
Qed.

Lemma text_step_buffer (b : jsstring) (st : State) :
  text_step callbacks st (with_buffer b st) [].
Proof. exact (text_step_refl st). Qed.

Lemma text_step_trans (st1 st2 st3 : State) (l1 l2 : list Call) :
  text_step callbacks st1 st2 l1 -> text_step callbacks st2 st3 l2 ->
  text_step callbacks st1 st3 (l1 ++ l2).
Proof.
  intros (n1 & E1 & C1) (n2 & E2 & C2). exists (n1 ++ n2). split.
  - now rewrite E2, E1, app_assoc.
  - rewrite text_calls_app, C1, C2. now destruct (onText callbacks).
Qed.

Lemma text_step_record (parsed : JsRecord) (st : State) :
  text_step callbacks st (fst (processRecord callbacks parsed st))
    (snd (processRecord callbacks parsed st)).
Proof.
  rewrite processRecord_effects. exists (new_fragments parsed st).
  split; [reflexivity | apply text_calls_effects].
Qed.

Lemma text_step_run (ops : list Op) (st : State) :
  text_step callbacks st (fst (run callbacks ops st)) (snd (run callbacks ops st)).
Proof.
  apply lift_run.
  - apply text_step_refl.
  - apply text_step_trans.
  - apply text_step_buffer.
  - apply text_step_record.
Qed.

(** The text aspect of one line. *)
Lemma processLine_text (line : jsstring) (st : State) :
  let r := processLine callbacks line st in
  let new := match event_of line with
             | Some parsed => new_fragments parsed st
             | None => []
             end in
  collectedTextParts (fst r) = collectedTextParts st ++ new /\
  text_calls (snd r) = delivered (onText callbacks) new.
Proof.
  cbv zeta. rewrite processLine_effects. destruct (event_of line) as [parsed|].
  - rewrite text_calls_effects. now split.
  - cbn [fst snd]. rewrite app_nil_r. split; [reflexivity|].
    now destruct (onText callbacks).
Qed.

(** Counting the text observer's calls over a list of lines. *)
Lemma text_calls_processLines (lines : list jsstring) :
  onText callbacks = true ->
  forall st,
    List.length (text_calls (snd (processLines callbacks lines st))) =
      count_deltas lines +
      (if (List.length (collectedTextParts st) =? 0)%nat && fallback_first lines
       then 1 else 0).
Proof.
  intros Hon. induction lines as [|l ls IH]; intros st.
  - simpl. now rewrite andb_false_r.
  - cbn [processLines]. rewrite seq_eq. cbn [snd].
    rewrite text_calls_app, length_app, IH.
    destruct (processLine_text l st) as [Ep Ec]. rewrite Ec, Ep, Hon.
    unfold count_deltas, line_delta, line_fallback. cbn [filter fallback_first].
    unfold line_delta, line_fallback.
    destruct (event_of l) as [parsed|].
    + destruct (text_delta_of parsed) as [t|] eqn:Ed.
      * unfold new_fragments. rewrite Ed. cbn [is_some delivered List.length].
        rewrite length_app. cbn [List.length].
        replace (List.length (collectedTextParts st) + 1 =? 0)%nat with false
          by (symmetry; apply Nat.eqb_neq; lia).
        rewrite andb_false_r. cbn [andb]. lia.
      * rewrite (new_fragments_fallback _ st Ed). cbn [is_some].
        destruct (List.length (collectedTextParts st) =? 0)%nat eqn:L.
        -- destruct (fallback_of parsed) as [f|]; cbn [is_some option_list delivered].
           ++ rewrite length_app. cbn [List.length].
              replace (List.length (collectedTextParts st) + 1 =? 0)%nat with false
                by (symmetry; apply Nat.eqb_neq; lia).
              cbn [andb]. lia.
           ++ rewrite app_nil_r, L. cbn [List.length]. lia.
        -- cbn [delivered]. rewrite app_nil_r, L. cbn [andb List.length]. lia.
    + cbn [is_some delivered]. rewrite app_nil_r. cbn [List.length]. lia.
Qed.

(** A whole session, fed in one piece and flushed, makes the calls of its
    lines processed in order. *)
Lemma session_calls_of_lines (s : jsstring) :
  snd ((feed callbacks s ;; flush callbacks) init) =
  snd (processLines callbacks (split s) init).
Proof.
  rewrite seq_eq, feed_eq, flush_eq. cbn zeta. cbn [fst snd buffer init app].
  cbn [with_buffer buffer].
  destruct (chop s) as [last lines] eqn:E.
  destruct last as [last|]; [|exfalso; apply (chop_last_some s); now rewrite E].
  cbn [fst snd]. rewrite (pop_snoc (split s) lines last E), processLines_app, seq_eq. cbn [snd processLines].
  rewrite (seq_eq (processLine callbacks last)). cbn [skip fst snd].
  rewrite app_nil_r. f_equal.
  destruct (str_truthy (trim last)) eqn:T; cbn [snd].
  - now rewrite blind_processLine.
  - rewrite processLine_event. unfold event_of. now rewrite T.
Qed.

End Text.

Lemma new_fragments_result (parsed : JsRecord) (st : State) :
  is_result parsed = true ->
  new_fragments parsed st = fallback_fragments parsed st.
Proof.
  intros H. unfold new_fragments.
  destruct (is_result_excludes _ H) as (-> & _ & _). now rewrite H.
Qed.

(** C8, as amended.  On a result line the fallback path appends the [result]
    field to [collectedTextParts] and calls the text observer with it if and
    only if no fragment has been collected so far and the field is a string
    whose trimmed value is not empty.  So, over a whole session, the number
    of calls to the text observer is the number of recognized text deltas,
    plus one exactly when some result line carrying such a field comes before
    every text delta. *)
Theorem C8_fallback_text :
  forall (decoder : JsonDecoder) (callbacks : StreamJsonCallbacks),
    (forall (st : State) (line : jsstring) (parsed : JsRecord),
        event_of line = Some parsed ->
        get parsed (lit "type") = Some (JString (lit "result")) ->
        collectedTextParts (fst (processLine callbacks line st)) =
          collectedTextParts st ++ fallback_fragments parsed st /\
        text_calls (snd (processLine callbacks line st)) =
          delivered (onText callbacks) (fallback_fragments parsed st) /\
        (forall t, fallback_fragments parsed st = [t] <->
                   collectedTextParts st = [] /\
                   get parsed (lit "result") = Some (JString t) /\ trim t <> []) /\
        (fallback_fragments parsed st = [] \/
         exists t, fallback_fragments parsed st = [t])) /\
    (forall fragments : list jsstring,
        onText callbacks = true ->
        List.length
          (text_calls (snd ((feedAll callbacks fragments ;; flush callbacks) init))) =
        count_deltas (split (concat fragments)) +
        (if fallback_first (split (concat fragments)) then 1 else 0)).
Proof.
  intros decoder callbacks. split.
  - intros st line parsed He Ht.
    pose proof (processLine_text callbacks line st) as P. cbv zeta in P.
    rewrite He, (new_fragments_result _ st (event_type_result _ Ht)) in P.
    destruct P as [P1 P2]. split; [exact P1|]. split; [exact P2|].
    split; [intros t; apply fallback_fragments_one | apply fallback_fragments_cases].
  - intros fragments Hon.
    assert (E : snd ((feedAll callbacks fragments ;; flush callbacks) init) =
                snd ((feed callbacks (concat fragments) ;; flush callbacks) init)).
    { now rewrite !seq_eq, feedAll_init. }
    rewrite E, session_calls_of_lines, (text_calls_processLines callbacks _ Hon).
    reflexivity.
Qed.

Lemma C8_witness :
  let l := js "{'type':'result','session_id':'s','result':'Final answer'}" in
  let parsed := [(lit "type", JString (lit "result"));
                 (lit "session_id", JString (lit "s"));
                 (lit "result", JString (lit "Final answer"))] in
  let stream := l ++ [LF] in
  (collectedTextParts (fst (processLine all_callbacks l init)) =
     collectedTextParts init ++ fallback_fragments parsed init /\
   text_calls (snd (processLine all_callbacks l init)) =
     delivered (onText all_callbacks) (fallback_fragments parsed init)) /\
  List.length
    (text_calls (snd ((feedAll all_callbacks [stream] ;; flush all_callbacks) init))) =
  count_deltas (split (concat [stream])) +
  (if fallback_first (split (concat [stream])) then 1 else 0).
Proof.
  intros l parsed stream. split.
  - destruct (proj1 (C8_fallback_text ecma_decoder all_callbacks) init l parsed
                ltac:(vm_compute; reflexivity) ltac:(vm_compute; reflexivity))
      as (H1 & H2 & _).
    split; [exact H1 | exact H2].
  - apply (proj2 (C8_fallback_text ecma_decoder all_callbacks) [stream]).
    reflexivity.
Defined.

(** C8 as stated fails: when a result line with a usable [result] field is
    followed by a text delta (a second exchange that streams its text), the
    fallback text and the delta are both delivered, so the count is one more
    than the number of deltas although a delta occurred. *)
Lemma C8_counterexample :
  let stream :=
    line "{'type':'result','result':'first answer'}"
    ++ line "{'type':'content_block_delta','index':0,'delta':{'type':'text_delta','text':'second'}}"
    ++ line "{'type':'result','result':'second'}" in
  let lines := split stream in
  let calls := snd ((feed all_callbacks stream ;; flush all_callbacks) init) in
  text_calls calls = [lit "first answer"; lit "second"] /\
  count_deltas lines = 1 /\
  List.length (text_calls calls) <>
    count_deltas lines +
    (if (count_deltas lines =? 0)%nat
        && existsb (fun l => is_some (line_fallback l)) lines
     then 1 else 0).
Proof.
  vm_compute. repeat split. discriminate.
Qed.

(** ** Empty text deltas *)

Lemma text_delta_fields (parsed delta : JsRecord) (t : jsstring) :
  get parsed (lit "type") = Some (JString (lit "content_block_delta")) ->
  get parsed (lit "delta") = Some (JObject delta) ->
  get delta (lit "type") = Some (JString (lit "text_delta")) ->
  get delta (lit "text") = Some (JString t) ->
  text_delta_of parsed = Some t.
Proof.
  intros Ht Hd Hdt Hx. unfold text_delta_of.
  rewrite (event_type_field _ _ Ht), str_eqb_refl, Hd. cbn [asRecord].
  rewrite Hdt, Hx. cbn [strictEqStr asString]. now rewrite str_eqb_refl.
Qed.

(** C9. A text delta whose payload is the empty string is recognized like any
    other: the empty string is appended to [collectedTextParts] and handed to
    the text observer; the accumulated text is unchanged; and from then on,
    whatever is fed or flushed, [collectedTextParts] is never empty again, so
    no result line takes the fallback path. *)
Theorem C9_empty_text_delta :
  forall (decoder : JsonDecoder) (callbacks : StreamJsonCallbacks)
         (st : State) (line : jsstring) (parsed delta : JsRecord),
    event_of line = Some parsed ->
    get parsed (lit "type") = Some (JString (lit "content_block_delta")) ->
    get parsed (lit "delta") = Some (JObject delta) ->
    get delta (lit "type") = Some (JString (lit "text_delta")) ->
    get delta (lit "text") = Some (JString []) ->
    collectedTextParts (fst (processLine callbacks line st)) =
      collectedTextParts st ++ [[]] /\
    text_calls (snd (processLine callbacks line st)) =
      delivered (onText callbacks) [[]] /\
    getCollectedText (fst (processLine callbacks line st)) = getCollectedText st /\
    forall ops : list Op,
      collectedTextParts
        (fst (run callbacks ops (fst (processLine callbacks line st)))) <> [] /\
      forall (rline : jsstring) (rparsed : JsRecord),
        event_of rline = Some rparsed ->
        get rparsed (lit "type") = Some (JString (lit "result")) ->
        collectedTextParts
          (fst (processLine callbacks rline
                  (fst (run callbacks ops (fst (processLine callbacks line st)))))) =
        collectedTextParts
          (fst (run callbacks ops (fst (processLine callbacks line st)))) /\
        text_calls
          (snd (processLine callbacks rline
                  (fst (run callbacks ops (fst (processLine callbacks line st)))))) = [].
Proof.
  intros decoder callbacks st line parsed delta He Ht Hd Hdt Hx.
  pose proof (text_delta_fields _ _ _ Ht Hd Hdt Hx) as D.
  pose proof (processLine_text callbacks line st) as P. cbv zeta in P.
  rewrite He in P. unfold new_fragments in P. rewrite D in P.
  destruct P as [P1 P2].
  split; [exact P1|]. split; [exact P2|]. split.
  - unfold getCollectedText. rewrite P1, concat_app. simpl. now rewrite app_nil_r.
  - intros ops.
    set (st1 := fst (processLine callbacks line st)) in *.
    set (st2 := fst (run callbacks ops st1)).
    assert (N : collectedTextParts st2 <> []).
    { destruct (text_step_run callbacks ops st1) as (new & E & _).
      fold st2 in E. rewrite E, P1.
      destruct (collectedTextParts st); discriminate. }
    split; [exact N|].
    intros rline rparsed Hre Hrt.
    pose proof (processLine_text callbacks rline st2) as Q. cbv zeta in Q.
    rewrite Hre, (new_fragments_result _ st2 (event_type_result _ Hrt)) in Q.
    assert (F : fallback_fragments rparsed st2 = []).
    { unfold fallback_fragments.
      destruct (asString (get rparsed (lit "result"))); [|reflexivity].
      destruct (List.length (collectedTextParts st2) =? 0)%nat eqn:L; [|reflexivity].
      apply length_zero_nil in L. contradiction. }
    rewrite F, app_nil_r in Q. destruct Q as [Q1 Q2].
    split; [exact Q1|]. rewrite Q2. now destruct (onText callbacks).
Qed.

Lemma C9_witness :
  let l := js "{'type':'content_block_delta','index':0,'delta':{'type':'text_delta','text':''}}" in
  let r := js "{'type':'result','result':'late answer'}" in
  let st1 := fst (processLine all_callbacks l init) in
  collectedTextParts st1 = [[]] /\
  getCollectedText st1 = [] /\
  text_calls (snd (processLine all_callbacks r st1)) = [].
Proof.
  intros l r st1.
  destruct (C9_empty_text_delta ecma_decoder all_callbacks init l
              [(lit "type", JString (lit "content_block_delta"));
               (lit "index", JNumber (S754_zero false));
               (lit "delta", JObject [(lit "type", JString (lit "text_delta"));
                                      (lit "text", JString [])])]
              [(lit "type", JString (lit "text_delta")); (lit "text", JString [])]
              ltac:(vm_compute; reflexivity) ltac:(vm_compute; reflexivity)
              ltac:(vm_compute; reflexivity) ltac:(vm_compute; reflexivity)
              ltac:(vm_compute; reflexivity))
    as (H1 & _ & H3 & H4).
  split; [exact H1|]. split; [exact H3|].
  destruct (H4 []) as [_ H5].
  apply (H5 r [(lit "type", JString (lit "result"));
               (lit "result", JString (lit "late answer"))]);
    vm_compute; reflexivity.
Defined.

Lemma C7_witness :
  let raw := [(lit "input_tokens", JNumber (num 0));
              (lit "inputTokens", JNumber (num 7));
              (lit "cached_input_tokens", JNumber (num 3));
              (lit "total", JNumber (Json.decimal_to_number true 1 0))] in
  toUsage raw = Some {| input := Some (num 7); output := None;
                        cacheRead := Some (num 3); cacheWrite := None;
                        total := None |}.
Proof.
  intros raw.
  apply (proj1 (proj2 (C7_toUsage_resolves raw))).
  vm_compute. discriminate.
Defined.

(** ** The repository's tests, replayed on the embedding *)

Module Tests.

Example emits_text_deltas :
  let r := run all_callbacks [Feed (delta_line "Hello"); Feed (delta_line " world")] init in
  text_calls (snd r) = [lit "Hello"; lit " world"] /\
  getCollectedText (fst r) = lit "Hello world".
Proof. vm_compute. split; reflexivity. Qed.

Example captures_session_id_from_system_init :
  let r := run all_callbacks
             [Feed (line "{'type':'system','subtype':'init','session_id':'sess-123'}")]
             init in
  session_calls (snd r) = [lit "sess-123"] /\
  getSessionId (fst r) = Some (lit "sess-123").
Proof. vm_compute. split; reflexivity. Qed.

Example captures_session_id_from_result :
  let r := run all_callbacks
             [Feed (line "{'type':'result','subtype':'success','session_id':'sess-456','result':'done'}")]
             init in
  session_calls (snd r) = [lit "sess-456"] /\
  getSessionId (fst r) = Some (lit "sess-456").
Proof. vm_compute. split; reflexivity. Qed.

Example captures_usage_from_result :
  let r := run all_callbacks
             [Feed (line "{'type':'result','session_id':'s','result':'ok','usage':{'input_tokens':100,'output_tokens':50,'cache_read_input_tokens':200}}")]
             init in
  let u := {| input := Some (num 100); output := Some (num 50);
              cacheRead := Some (num 200); cacheWrite := None; total := None |} in
  usage_calls (snd r) = [u] /\ getUsage (fst r) = Some u.
Proof. vm_compute. split; reflexivity. Qed.

Example emits_tool_use :
  snd (run all_callbacks
         [Feed (line "{'type':'content_block_start','index':1,'content_block':{'type':'tool_use','id':'toolu_01','name':'Read'}}")]
         init) = [OnToolUse (lit "Read")].
Proof. vm_compute. reflexivity. Qed.

Example emits_error_and_fallback_text :
  snd (run all_callbacks
         [Feed (line "{'type':'result','subtype':'error','session_id':'s','result':'Something went wrong','is_error':true}")]
         init) =
  [OnSessionId (lit "s"); OnText (lit "Something went wrong");
   OnError (lit "Something went wrong")].
Proof. vm_compute. reflexivity. Qed.

Example buffers_incomplete_lines :
  let first := js "{'type':'content_block_delta','index':0,'delta':{'ty" in
  let second := js "pe':'text_delta','text':'partial'}}" ++ [LF] in
  snd (feed all_callbacks first init) = [] /\
  snd (feed all_callbacks second (fst (feed all_callbacks first init))) =
    [OnText (lit "partial")].
Proof. vm_compute. split; reflexivity. Qed.

Example several_events_in_one_chunk :
  let r := feed all_callbacks (delta_line "A" ++ delta_line "B") init in
  text_calls (snd r) = [lit "A"; lit "B"] /\ getCollectedText (fst r) = lit "AB".
Proof. vm_compute. split; reflexivity. Qed.

Example ignores_malformed_lines :
  snd (run all_callbacks
         [Feed (lit "not json" ++ [LF]); Feed (lit "{broken" ++ [LF]);
          Feed (delta_line "ok")] init) = [OnText (lit "ok")].
Proof. vm_compute. reflexivity. Qed.

Example ignores_unknown_event_types :
  snd (run all_callbacks
         [Feed (line "{'type':'message_start'}");
          Feed (line "{'type':'content_block_stop','index':0}");
          Feed (line "{'type':'message_stop'}")] init) = [].
Proof. vm_compute. reflexivity. Qed.

Example result_text_is_the_fallback :
  let r := run all_callbacks
             [Feed (line "{'type':'result','session_id':'s','result':'Final answer'}")]
             init in
  text_calls (snd r) = [lit "Final answer"] /\
  getCollectedText (fst r) = lit "Final answer".
Proof. vm_compute. split; reflexivity. Qed.

Example no_fallback_after_deltas :
  let r := run all_callbacks
             [Feed (delta_line "streamed");
              Feed (line "{'type':'result','session_id':'s','result':'streamed'}")]
             init in
  text_calls (snd r) = [lit "streamed"] /\
  getCollectedText (fst r) = lit "streamed".
Proof. vm_compute. split; reflexivity. Qed.

Example flush_processes_the_tail :
  let tail := js "{'type':'content_block_delta','index':0,'delta':{'type':'text_delta','text':'tail'}}" in
  snd (feed all_callbacks tail init) = [] /\
  snd (flush all_callbacks (fst (feed all_callbacks tail init))) = [OnText (lit "tail")].
Proof. vm_compute. split; reflexivity. Qed.

Example full_session :
  let r := run all_callbacks test_session init in
  let u := {| input := Some (num 50); output := Some (num 10);
              cacheRead := None; cacheWrite := None; total := None |} in
  getCollectedText (fst r) = lit "Hello, world!" /\
  getSessionId (fst r) = Some (lit "abc-123") /\
  getUsage (fst r) = Some u /\
  List.length (text_calls (snd r)) = 3 /\
  List.length (session_calls (snd r)) = 1 /\
  List.length (usage_calls (snd r)) = 1 /\
  error_calls (snd r) = [].
Proof. vm_compute. repeat split; reflexivity. Qed.

Example works_without_callbacks :
  let r := run no_callbacks test_session init in
  snd r = [] /\
  getCollectedText (fst r) = lit "Hello, world!" /\
  getSessionId (fst r) = Some (lit "abc-123").
Proof. vm_compute. repeat split; reflexivity. Qed.

Example ignores_non_text_deltas :
  let r := run all_callbacks
             [Feed (line "{'type':'content_block_delta','index':1,'delta':{'type':'input_json_delta','partial_json':'{\'file'}}")]
             init in
  snd r = [] /\ getCollectedText (fst r) = [].
Proof. vm_compute. split; reflexivity. Qed.

End Tests.

(** * Further properties of the parser *)

(** ** Reassembling lines *)

Lemma chop_no_LF (s : jsstring) : ~ In LF s -> chop s = (Some s, []).
Proof.
  induction s as [|c r IH]; intros H; [reflexivity|].
  rewrite chop_other.
  - rewrite IH; [reflexivity|]. intros Hin. apply H. now right.
  - apply N.eqb_neq. intros ->. apply H. now left.
Qed.

Lemma chop_tail_no_LF (s : jsstring) :
  forall last ls, chop s = (Some last, ls) -> ~ In LF last.
Proof.
  induction s as [|c r IH]; intros last ls.
  - rewrite chop_nil. intros [= <- _] [].
  - destruct (N.eqb c LF) eqn:Hc.
    + apply N.eqb_eq in Hc; subst c. rewrite chop_LF.
      destruct (chop r) as [lr lsr]. cbn [fst snd]. intros [= -> _].
      now apply (IH last lsr).
    + rewrite chop_other by exact Hc.
      destruct (chop r) as [[lr|] [|l lsr]].
      * intros [= <- _] [->|Hin].
        -- now rewrite N.eqb_refl in Hc.
        -- now apply (IH lr [] eq_refl).
      * intros [= -> _]. now apply (IH last (l :: lsr)).
      * intros [= <- _] [->|[]]. now rewrite N.eqb_refl in Hc.
      * discriminate.
Qed.

Lemma chop_terminated (lines : list jsstring) (tail : jsstring) :
  Forall (fun l => ~ In LF l) lines -> ~ In LF tail ->
  chop (terminated lines ++ tail) = (Some tail, lines).
Proof.
  intros Hl Ht. induction Hl as [|l ls Hn _ IH].
  - now apply chop_no_LF.
  - unfold terminated in *. cbn [map concat]. rewrite <- app_assoc.
    rewrite (chop_app (l ++ [LF]) _ [] [l] (chop_line l Hn)).
    cbn [app]. now rewrite IH.
Qed.

Section Reassembly.

Context {decoder : JsonDecoder}.
Variable callbacks : StreamJsonCallbacks.

Lemma feed_buffer_no_LF (chunk : jsstring) (st : State) :
  ~ In LF (buffer (fst (feed callbacks chunk st))).
Proof.
  rewrite feed_eq. cbn [fst buffer with_buffer].
  destruct (chop (buffer st ++ chunk)) as [[last|] ls] eqn:E; cbn [fst].
  - exact (chop_tail_no_LF _ _ _ E).
  - intros [].
Qed.

Lemma flush_buffer_no_LF (st : State) :
  ~ In LF (buffer st) -> ~ In LF (buffer (fst (flush callbacks st))).
Proof.
  intros H. rewrite flush_eq. destruct (str_truthy (trim (buffer st))).
  - intros [].
  - exact H.
Qed.

Lemma run_buffer_no_LF (ops : list Op) :
  forall st, ~ In LF (buffer st) -> ~ In LF (buffer (fst (run callbacks ops st))).
Proof.
  induction ops as [|op ops IH]; intros st H; [exact H|].
  cbn [run]. rewrite seq_eq. cbn [fst]. apply IH.
  destruct op; [apply feed_buffer_no_LF | now apply flush_buffer_no_LF].
Qed.

(** Feeding a line feed completes the pending line the way [flush] does, and
    always empties the buffer. *)
Lemma feed_LF_flush (st : State) :
  ~ In LF (buffer st) ->
  feed callbacks [LF] st =
    (with_buffer [] (fst (flush callbacks st)), snd (flush callbacks st)).
Proof.
  intros H. rewrite feed_eq, (chop_line _ H), flush_eq. cbn [fst snd processLines].
  rewrite seq_eq. cbn [skip fst snd]. rewrite app_nil_r.
  destruct (str_truthy (trim (buffer st))) eqn:T; cbn [fst snd].
  - reflexivity.
  - rewrite processLine_event. unfold event_of. now rewrite T.
Qed.

End Reassembly.

(** X1. [feed] composes: in every state, feeding [a] and then [b] is feeding
    [a ++ b], for the state and for the observer calls. *)
Theorem X1_feed_composes :
  forall (decoder : JsonDecoder) (callbacks : StreamJsonCallbacks)
         (a b : jsstring) (st : State),
    (feed callbacks a ;; feed callbacks b) st = feed callbacks (a ++ b) st.
Proof. intros. apply feed_app. Qed.

(** X2. The buffer never holds a line feed: not after any [feed], whatever
    the state before, and not after any history of operations on a new
    parser. *)
Theorem X2_buffer_has_no_line_feed :
  forall (decoder : JsonDecoder) (callbacks : StreamJsonCallbacks),
    (forall (chunk : jsstring) (st : State),
        ~ In LF (buffer (fst (feed callbacks chunk st)))) /\
    (forall ops : list Op, ~ In LF (buffer (fst (run callbacks ops init)))).
Proof.
  intros decoder callbacks. split.
  - apply feed_buffer_no_LF.
  - intros ops. apply run_buffer_no_LF. intros [].
Qed.

(** X3. A chunk without a line feed, fed to a parser whose buffer has none,
    is only appended to the buffer: no observer is called and nothing else
    changes. *)
Theorem X3_partial_chunk_is_buffered :
  forall (decoder : JsonDecoder) (callbacks : StreamJsonCallbacks)
         (chunk : jsstring) (st : State),
    ~ In LF (buffer st) -> ~ In LF chunk ->
    feed callbacks chunk st = (with_buffer (buffer st ++ chunk) st, []).
Proof.
  intros decoder callbacks chunk st Hb Hc.
  rewrite feed_eq, chop_no_LF; [reflexivity|].
  intros H. apply in_app_or in H as [H|H]; auto.
Qed.

Lemma X3_witness :
  let chunk := js "{'type':'content_block_delta','index':0,'del" in
  feed all_callbacks chunk init = (with_buffer (buffer init ++ chunk) init, []).
Proof.
  intros chunk.
  apply (X3_partial_chunk_is_buffered ecma_decoder all_callbacks chunk init).
  - intros [].
  - vm_compute. intuition discriminate.
Defined.

(** X4. [feed] processes exactly the completed lines, in order, and keeps the
    unterminated tail: when the buffer followed by the chunk is a sequence of
    lines, each ended by a line feed, followed by a tail, the lines are
    processed in the state found and the tail becomes the buffer. *)
Theorem X4_feed_processes_completed_lines :
  forall (decoder : JsonDecoder) (callbacks : StreamJsonCallbacks)
         (st : State) (chunk : jsstring) (lines : list jsstring) (tail : jsstring),
    buffer st ++ chunk = terminated lines ++ tail ->
    Forall (fun l => ~ In LF l) lines -> ~ In LF tail ->
    feed callbacks chunk st =
      (with_buffer tail (fst (processLines callbacks lines st)),
       snd (processLines callbacks lines st)).
Proof.
  intros decoder callbacks st chunk lines tail E Hl Ht.
  rewrite feed_eq, E, (chop_terminated lines tail Hl Ht). reflexivity.
Qed.

Lemma X4_witness :
  let st := fst (feed all_callbacks (js "{'type':'system',") init) in
  let l1 := js "{'type':'system','session_id':'s1'}" in
  let l2 := js "{'type':'content_block_delta','delta':{'type':'text_delta','text':'A'}}" in
  let tail := js "{'type':" in
  feed all_callbacks (js "'session_id':'s1'}" ++ [LF] ++ l2 ++ [LF] ++ tail) st =
    (with_buffer tail (fst (processLines all_callbacks [l1; l2] st)),
     snd (processLines all_callbacks [l1; l2] st)).
Proof.
  intros st l1 l2 tail.
  apply (X4_feed_processes_completed_lines ecma_decoder all_callbacks st
           (js "'session_id':'s1'}" ++ [LF] ++ l2 ++ [LF] ++ tail) [l1; l2] tail).
  - vm_compute. reflexivity.
  - repeat constructor; vm_compute; intuition discriminate.
  - vm_compute. intuition discriminate.
Defined.

(** X5. Flushing at the end of a stream is feeding one more line feed: the
    observer calls are the same and the states differ at most in the buffer,
    which the line feed always empties. *)
Theorem X5_flush_is_a_final_line_feed :
  forall (decoder : JsonDecoder) (callbacks : StreamJsonCallbacks)
         (s : jsstring) (st : State),
    feed callbacks (s ++ [LF]) st =
      (with_buffer [] (fst ((feed callbacks s ;; flush callbacks) st)),
       snd ((feed callbacks s ;; flush callbacks) st)).
Proof.
  intros decoder callbacks s st.
  rewrite <- feed_app, !seq_eq, feed_LF_flush by apply feed_buffer_no_LF.
  reflexivity.
Qed.

(** ** White space around a line *)

Lemma trim_cons_ws (c : code_unit) (s : jsstring) :
  isWhiteSpace c = true -> trim (c :: s) = trim s.
Proof. intros H. unfold trim. simpl trimStart. now rewrite H. Qed.

Lemma trimStart_snoc_ws (c : code_unit) (s : jsstring) :
  isWhiteSpace c = true ->
  trimStart (s ++ [c]) =
    match trimStart s with
    | [] => []
    | x :: t => (x :: t) ++ [c]
    end.
Proof.
  intros H. induction s as [|x s IH]; simpl.
  - now rewrite H.
  - destruct (isWhiteSpace x); [exact IH | reflexivity].
Qed.

Lemma trim_snoc_ws (c : code_unit) (s : jsstring) :
  isWhiteSpace c = true -> trim (s ++ [c]) = trim s.
Proof.
  intros H. unfold trim. rewrite (trimStart_snoc_ws c s H).
  destruct (trimStart s) as [|x t]; [reflexivity|].
  unfold trimEnd. rewrite rev_app_distr. simpl rev at 2. simpl app.
  simpl trimStart at 1. now rewrite H.
Qed.

Lemma trim_padding (pre line post : jsstring) :
  Forall (fun c => isWhiteSpace c = true) pre ->
  Forall (fun c => isWhiteSpace c = true) post ->
  trim (pre ++ line ++ post) = trim line.
Proof.
  intros Hpre Hpost. induction Hpre as [|c pre Hc _ IH].
  - simpl. revert Hpost. induction post as [|c post IH] using rev_ind; intros Hpost.
    + now rewrite app_nil_r.
    + apply Forall_app in Hpost as [Hp Hc]. inversion Hc; subst.
      rewrite app_assoc, trim_snoc_ws by assumption. now apply IH.
  - simpl. now rewrite trim_cons_ws.
Qed.

(** X6. Only the trimmed line matters: white space before and after a line,
    such as the carriage return of a CRLF ending or indentation, does not
    change what [processLine] does. *)
Theorem X6_surrounding_white_space_is_ignored :
  forall (decoder : JsonDecoder) (callbacks : StreamJsonCallbacks)
         (pre line post : jsstring) (st : State),
    Forall (fun c => isWhiteSpace c = true) pre ->
    Forall (fun c => isWhiteSpace c = true) post ->
    processLine callbacks (pre ++ line ++ post) st = processLine callbacks line st /\
    processLine callbacks (trim line) st = processLine callbacks line st.
Proof.
  intros decoder callbacks pre line post st Hpre Hpost.
  unfold processLine. now rewrite trim_padding, trim_idempotent.
Qed.

Lemma X6_witness :
  let l := js "{'type':'system','session_id':'crlf'}" in
  processLine all_callbacks ([32%N; 9%N] ++ l ++ [CR]) init =
    processLine all_callbacks l init /\
  processLine all_callbacks (trim l) init = processLine all_callbacks l init.
Proof.
  intros l.
  apply (X6_surrounding_white_space_is_ignored ecma_decoder all_callbacks
           [32%N; 9%N] l [CR] init);
    repeat constructor.
Defined.

(** X7. A line that is empty or holds only white space is dropped before any
    decoding: it calls no observer and changes nothing, so blank lines
    between events do not matter. *)
Theorem X7_blank_lines_are_dropped :
  forall (decoder : JsonDecoder) (callbacks : StreamJsonCallbacks) (line : jsstring),
    trim line = [] ->
    (forall st : State, processLine callbacks line st = (st, [])) /\
    (forall (before after : list jsstring) (st : State),
        processLines callbacks (before ++ line :: after) st =
        processLines callbacks (before ++ after) st).
Proof.
  intros decoder callbacks line H.
  assert (P : forall st, processLine callbacks line st = (st, [])).
  { intros st. unfold processLine. now rewrite H. }
  split; [exact P|].
  intros before after st. rewrite !processLines_app, !seq_eq.
  cbn [processLines]. rewrite (seq_eq (processLine callbacks line)), P.
  reflexivity.
Qed.

Lemma X7_witness :
  processLine all_callbacks [32%N; CR] init = (init, []) /\
  processLines all_callbacks
    ([delta_line "A"] ++ [32%N; CR] :: [delta_line "B"]) init =
  processLines all_callbacks ([delta_line "A"] ++ [delta_line "B"]) init.
Proof.
  destruct (X7_blank_lines_are_dropped ecma_decoder all_callbacks [32%N; CR]
              ltac:(reflexivity)) as [H1 H2].
  split; [apply H1 | apply H2].
Defined.

(** ** Events, one kind at a time *)

Lemma tool_calls_effects (callbacks : StreamJsonCallbacks) (parsed : JsRecord) (st : State) :
  tool_calls (snd (record_effects callbacks parsed st)) =
    delivered (onToolUse callbacks) (option_list (tool_use_of parsed)).
Proof.
  unfold record_effects, tool_calls. cbn [snd].
  rewrite !flat_map_app, !flat_map_of_map. cbn beta iota.
  now rewrite !flat_map_nil, flat_map_single, !app_nil_r.
Qed.

Lemma in_tool_calls (n : jsstring) (calls : list Call) :
  In (OnToolUse n) calls <-> In n (tool_calls calls).
Proof.
  unfold tool_calls. rewrite in_flat_map. split.
  - intros H. exists (OnToolUse n). split; [assumption | now left].
  - intros ([] & Hin & Hx); simpl in Hx; try contradiction.
    destruct Hx as [<-|[]]. assumption.
Qed.

Lemma event_type_string (parsed : JsRecord) (t : jsstring) :
  event_type parsed = t -> t <> [] -> get parsed (lit "type") = Some (JString t).
Proof.
  unfold event_type.
  destruct (get parsed (lit "type")) as [[| | |x| |]|]; simpl;
    intros <- H; congruence.
Qed.

Lemma tool_use_fields (parsed : JsRecord) (name : jsstring) :
  tool_use_of parsed = Some name <->
  exists block,
    get parsed (lit "type") = Some (JString (lit "content_block_start")) /\
    get parsed (lit "content_block") = Some (JObject block) /\
    get block (lit "type") = Some (JString (lit "tool_use")) /\
    get block (lit "name") = Some (JString name).
Proof.
  split.
  - intros H. pose proof (tool_use_type _ _ H) as T.
    unfold tool_use_of in H. rewrite T, str_eqb_refl in H.
    destruct (get parsed (lit "content_block")) as [[| | | | |block]|];
      try discriminate.
    cbn [asRecord] in H. exists block.
    destruct (get block (lit "type")) as [[| | |bt| |]|] eqn:B; try discriminate.
    cbn [strictEqStr] in H.
    destruct (str_eqb bt (lit "tool_use")) eqn:Q; [|discriminate].
    apply str_eqb_eq in Q; subst bt.
    destruct (get block (lit "name")) as [[| | |nm| |]|]; try discriminate.
    cbn [asString] in H. injection H as ->.
    repeat split. apply event_type_string; [assumption | discriminate].
  - intros (block & Ht & Hb & Hbt & Hn). unfold tool_use_of.
    rewrite (event_type_field _ _ Ht), str_eqb_refl, Hb. cbn [asRecord].
    rewrite Hbt, Hn. cbn [strictEqStr asString]. now rewrite str_eqb_refl.
Qed.

(** X8. A [content_block_start] event whose [content_block] is a record of
    type [tool_use] with a string [name] calls the tool-use observer with
    that name and changes no state; the tool-use observer is called for no
    other line. *)
Theorem X8_tool_use_start :
  forall (decoder : JsonDecoder) (callbacks : StreamJsonCallbacks)
         (line : jsstring) (st : State),
    (forall (parsed block : JsRecord) (name : jsstring),
        event_of line = Some parsed ->
        get parsed (lit "type") = Some (JString (lit "content_block_start")) ->
        get parsed (lit "content_block") = Some (JObject block) ->
        get block (lit "type") = Some (JString (lit "tool_use")) ->
        get block (lit "name") = Some (JString name) ->
        processLine callbacks line st =
          (st, if onToolUse callbacks then [OnToolUse name] else [])) /\
    (forall name : jsstring,
        In (OnToolUse name) (snd (processLine callbacks line st)) ->
        exists parsed block,
          event_of line = Some parsed /\
          get parsed (lit "type") = Some (JString (lit "content_block_start")) /\
          get parsed (lit "content_block") = Some (JObject block) /\
          get block (lit "type") = Some (JString (lit "tool_use")) /\
          get block (lit "name") = Some (JString name)).
Proof.
  intros decoder callbacks line st. split.
  - intros parsed block name He Ht Hb Hbt Hn.
    assert (T : tool_use_of parsed = Some name)
      by (apply tool_use_fields; now exists block).
    rewrite processLine_event, He, processRecord_cases, T.
    now destruct (tool_use_excludes _ _ T) as (-> & _ & _).
  - intros name H. apply in_tool_calls in H.
    rewrite processLine_effects in H.
    destruct (event_of line) as [parsed|]; [|contradiction].
    rewrite tool_calls_effects in H.
    destruct (tool_use_of parsed) as [n|] eqn:T;
      [|now destruct (onToolUse callbacks)].
    apply in_delivered_one in H; subst n.
    apply tool_use_fields in T as (block & H1 & H2 & H3 & H4).
    now exists parsed, block.
Qed.

Lemma X8_witness :
  let l := js "{'type':'content_block_start','index':1,'content_block':{'type':'tool_use','id':'toolu_01','name':'Read'}}" in
  processLine all_callbacks l init = (init, [OnToolUse (lit "Read")]) /\
  exists parsed block,
    event_of l = Some parsed /\
    get parsed (lit "type") = Some (JString (lit "content_block_start")) /\
    get parsed (lit "content_block") = Some (JObject block) /\
    get block (lit "type") = Some (JString (lit "tool_use")) /\
    get block (lit "name") = Some (JString (lit "Read")).
Proof.
  intros l. split.
  - refine (proj1 (X8_tool_use_start ecma_decoder all_callbacks l init)
              [(lit "type", JString (lit "content_block_start"));
               (lit "index", JNumber (num 1));
               (lit "content_block",
                JObject [(lit "type", JString (lit "tool_use"));
                         (lit "id", JString (lit "toolu_01"));
                         (lit "name", JString (lit "Read"))])]
              [(lit "type", JString (lit "tool_use"));
               (lit "id", JString (lit "toolu_01"));
               (lit "name", JString (lit "Read"))]
              (lit "Read") _ _ _ _ _); vm_compute; reflexivity.
  - apply (proj2 (X8_tool_use_start ecma_decoder all_callbacks l init)).
    vm_compute. left. reflexivity.
Defined.

(** X9. A record whose [type] is missing, is not a string, or is none of
    [content_block_delta], [content_block_start], [system] and [result] is
    ignored: no observer is called and nothing changes. *)
Theorem X9_unknown_events_are_ignored :
  forall (decoder : JsonDecoder) (callbacks : StreamJsonCallbacks)
         (line : jsstring) (parsed : JsRecord) (st : State),
    event_of line = Some parsed ->
    event_type parsed <> lit "content_block_delta" ->
    event_type parsed <> lit "content_block_start" ->
    event_type parsed <> lit "system" ->
    event_type parsed <> lit "result" ->
    processLine callbacks line st = (st, []).
Proof.
  intros decoder callbacks line parsed st He Hd Hs Hy Hr.
  assert (F : forall t, event_type parsed <> t -> str_eqb (event_type parsed) t = false).
  { intros t H. destruct (str_eqb (event_type parsed) t) eqn:E; [|reflexivity].
    now apply str_eqb_eq in E. }
  rewrite processLine_event, He, processRecord_cases.
  unfold text_delta_of, tool_use_of, is_system, is_result.
  now rewrite (F _ Hd), (F _ Hs), (F _ Hy), (F _ Hr).
Qed.

Lemma X9_witness :
  processLine all_callbacks (js "{'type':'message_stop'}") init = (init, []) /\
  processLine all_callbacks (js "{'type':7,'session_id':'s','result':'r'}") init
    = (init, []).
Proof.
  split.
  - apply (X9_unknown_events_are_ignored ecma_decoder all_callbacks
             (js "{'type':'message_stop'}")
             [(lit "type", JString (lit "message_stop"))] init);
      vm_compute; try reflexivity; discriminate.
  - apply (X9_unknown_events_are_ignored ecma_decoder all_callbacks
             (js "{'type':7,'session_id':'s','result':'r'}")
             [(lit "type", JNumber (num 7));
              (lit "session_id", JString (lit "s"));
              (lit "result", JString (lit "r"))] init);
      vm_compute; try reflexivity; discriminate.
Defined.

(** X10. A recognized text delta appends its payload to [collectedTextParts]
    and hands it to the text observer, and does nothing else: the session id
    and the usage record stay as they are even when the event carries
    [session_id] or [usage] fields, and the accumulated text grows by exactly
    the payload. *)
Theorem X10_text_delta :
  forall (decoder : JsonDecoder) (callbacks : StreamJsonCallbacks)
         (line : jsstring) (parsed delta : JsRecord) (text : jsstring) (st : State),
    event_of line = Some parsed ->
    get parsed (lit "type") = Some (JString (lit "content_block_delta")) ->
    get parsed (lit "delta") = Some (JObject delta) ->
    get delta (lit "type") = Some (JString (lit "text_delta")) ->
    get delta (lit "text") = Some (JString text) ->
    processLine callbacks line st =
      ({| buffer := buffer st;
          collectedTextParts := collectedTextParts st ++ [text];
          sessionId := sessionId st; usage := usage st |},
       if onText callbacks then [OnText text] else []) /\
    getCollectedText (fst (processLine callbacks line st)) =
      getCollectedText st ++ text.
Proof.
  intros decoder callbacks line parsed delta text st He Ht Hd Hdt Hx.
  pose proof (text_delta_fields _ _ _ Ht Hd Hdt Hx) as D.
  assert (E : processLine callbacks line st =
              ({| buffer := buffer st;
                  collectedTextParts := collectedTextParts st ++ [text];
                  sessionId := sessionId st; usage := usage st |},
               if onText callbacks then [OnText text] else [])).
  { rewrite processLine_event, He, processRecord_cases, D. reflexivity. }
  split; [exact E|]. rewrite E. unfold getCollectedText. cbn [fst collectedTextParts].
  rewrite concat_app. simpl. now rewrite app_nil_r.
Qed.

Lemma X10_witness :
  let l := js "{'type':'content_block_delta','session_id':'not-read','delta':{'type':'text_delta','text':'Hi'}}" in
  processLine all_callbacks l init =
    ({| buffer := []; collectedTextParts := [lit "Hi"];
        sessionId := None; usage := None |}, [OnText (lit "Hi")]).
Proof.
  intros l.
  refine (proj1 (X10_text_delta ecma_decoder all_callbacks l
            [(lit "type", JString (lit "content_block_delta"));
             (lit "session_id", JString (lit "not-read"));
             (lit "delta", JObject [(lit "type", JString (lit "text_delta"));
                                    (lit "text", JString (lit "Hi"))])]
            [(lit "type", JString (lit "text_delta")); (lit "text", JString (lit "Hi"))]
            (lit "Hi") init _ _ _ _ _)); vm_compute; reflexivity.
Defined.

(** ** The collected text and its observer *)

(** X11. The collected text is append-only, and the text observer sees it
    all: over any history of operations the fragments present before are
    still there, in place, followed by the new ones, and the text observer
    was called with exactly the new ones, in order.  So on a parser created
    with a text observer, the texts the observer received, joined, are the
    accumulated text. *)
Theorem X11_text_observer_mirrors_collected_text :
  forall (decoder : JsonDecoder) (callbacks : StreamJsonCallbacks) (ops : list Op),
    (forall st : State,
        exists new,
          collectedTextParts (fst (run callbacks ops st)) =
            collectedTextParts st ++ new /\
          text_calls (snd (run callbacks ops st)) =
            delivered (onText callbacks) new) /\
    (onText callbacks = true ->
     text_calls (snd (run callbacks ops init)) =
       collectedTextParts (fst (run callbacks ops init)) /\
     concat (text_calls (snd (run callbacks ops init))) =
       getCollectedText (fst (run callbacks ops init))).
Proof.
  intros decoder callbacks ops. split.
  - intros st. apply text_step_run.
  - intros Hon. destruct (text_step_run callbacks ops init) as (new & E & C).
    rewrite Hon in C. cbn [collectedTextParts init app delivered] in E, C.
    unfold getCollectedText. rewrite E, C. split; reflexivity.
Qed.

Lemma X11_witness :
  text_calls (snd (run all_callbacks test_session init)) =
    collectedTextParts (fst (run all_callbacks test_session init)) /\
  concat (text_calls (snd (run all_callbacks test_session init))) =
    getCollectedText (fst (run all_callbacks test_session init)).
Proof.
  apply (proj2 (X11_text_observer_mirrors_collected_text
                  ecma_decoder all_callbacks test_session)).
  reflexivity.
Defined.

(** ** The usage record *)

Lemma nullish_some {A : Type} (a b : option A) (x : A) :
  a ?? b = Some x -> a = Some x \/ (a = None /\ b = Some x).
Proof. destruct a; simpl; intros H; [left | right]; auto. Qed.

Lemma pick_chain2_positive (raw : JsRecord) (k1 k2 : string) (n : number) :
  pick raw k1 ?? pick raw k2 = Some n -> number_gt n zero = true.
Proof.
  intros H. apply nullish_some in H as [H|[_ H]];
    eapply pick_positive; eassumption.
Qed.

Lemma pick_chain3_positive (raw : JsRecord) (k1 k2 k3 : string) (n : number) :
  pick raw k1 ?? pick raw k2 ?? pick raw k3 = Some n -> number_gt n zero = true.
Proof.
  intros H. apply nullish_some in H as [H|[_ H]].
  - eapply pick_chain2_positive; eassumption.
  - eapply pick_positive; eassumption.
Qed.

Lemma not_number_false (x : option number) :
  not_number x = false -> exists n, x = Some n.
Proof. destruct x as [n|]; [now exists n | discriminate]. Qed.

(** Every record [toUsage] gives is meaningful. *)
Lemma toUsage_meaningful (raw : JsRecord) (u : CliUsage) :
  toUsage raw = Some u -> meaningful u.
Proof.
  unfold toUsage.
  set (i := pick raw "input_tokens" ?? pick raw "inputTokens").
  set (o := pick raw "output_tokens" ?? pick raw "outputTokens").
  set (cr := pick raw "cache_read_input_tokens" ?? pick raw "cached_input_tokens"
               ?? pick raw "cacheRead").
  set (cw := pick raw "cache_write_input_tokens" ?? pick raw "cacheWrite").
  set (t := pick raw "total_tokens" ?? pick raw "total").
  destruct (not_number i && not_number o && not_number cr
            && not_number cw && not_number t) eqn:B; [discriminate|].
  intros [= <-]. unfold meaningful, counters. cbn [input output cacheRead cacheWrite total].
  split.
  - repeat (apply andb_false_iff in B as [B|B]);
      apply not_number_false in B as [n B]; exists n; rewrite B; simpl; auto 6.
  - intros n [H|[H|[H|[H|[H|[]]]]]].
    + eapply pick_chain2_positive. exact H.
    + eapply pick_chain2_positive. exact H.
    + eapply pick_chain3_positive. exact H.
    + eapply pick_chain2_positive. exact H.
    + eapply pick_chain2_positive. exact H.
Qed.

Section UsageFacts.

Context {decoder : JsonDecoder}.
Variable callbacks : StreamJsonCallbacks.

Lemma usage_step_refl (st : State) : usage_step st st [].
Proof. split; [auto | intros H; split; [exact H | constructor]]. Qed.

Lemma usage_step_buffer (b : jsstring) (st : State) :
  usage_step st (with_buffer b st) [].
Proof. exact (usage_step_refl st). Qed.

Lemma usage_step_trans (st1 st2 st3 : State) (l1 l2 : list Call) :
  usage_step st1 st2 l1 -> usage_step st2 st3 l2 -> usage_step st1 st3 (l1 ++ l2).
Proof.
  intros [K1 M1] [K2 M2]. split; [auto|].
  intros H. destruct (M1 H) as [H2 F1]. destruct (M2 H2) as [H3 F2].
  split; [exact H3|]. rewrite usage_calls_app. apply Forall_app. now split.
Qed.

Lemma usage_step_record (parsed : JsRecord) (st : State) :
  usage_step st (fst (processRecord callbacks parsed st))
    (snd (processRecord callbacks parsed st)).
Proof.
  rewrite processRecord_effects. unfold usage_step.
  rewrite usage_calls_effects. unfold record_effects, usage_ok. cbn [fst usage].
  unfold new_usage, usage_notified.
  destruct (is_result parsed);
    [|split; [auto | intros H; split; [exact H | destruct (onUsage callbacks); constructor]]].
  destruct (asRecord (get parsed (lit "usage"))) as [raw|];
    [|split; [auto | intros H; split; [exact H | destruct (onUsage callbacks); constructor]]].
  destruct (toUsage raw) as [u|] eqn:T; cbn [nullish].
  - pose proof (toUsage_meaningful _ _ T) as M. split; [discriminate|].
    intros _. split; [exact M|].
    destruct (onUsage callbacks); cbn [delivered option_list];
      [apply Forall_cons; [exact M | constructor] | constructor].
  - split; [auto|]. intros H. split; [exact H|].
    destruct (usage st) as [u|]; destruct (onUsage callbacks);
      cbn [delivered option_list]; try constructor; [exact H | constructor].
Qed.

Lemma usage_step_run (ops : list Op) (st : State) :
  usage_step st (fst (run callbacks ops st)) (snd (run callbacks ops st)).
Proof.
  apply (lift_run callbacks (fun a b c => usage_step a b c)).
  - apply usage_step_refl.
  - apply usage_step_trans.
  - apply usage_step_buffer.
  - apply usage_step_record.
Qed.

End UsageFacts.

(** X12. The stored usage record is never cleared once set, and it is always
    meaningful: on a parser started new, after any history of operations, the
    record [getUsage] gives and every record handed to the usage observer
    has some counter present and every present counter strictly greater than
    zero. *)
Theorem X12_usage_is_kept_and_meaningful :
  forall (decoder : JsonDecoder) (callbacks : StreamJsonCallbacks) (ops : list Op),
    (forall st : State,
        getUsage st <> None -> getUsage (fst (run callbacks ops st)) <> None) /\
    (forall u : CliUsage,
        getUsage (fst (run callbacks ops init)) = Some u -> meaningful u) /\
    (forall u : CliUsage,
        In (OnUsage u) (snd (run callbacks ops init)) -> meaningful u).
Proof.
  intros decoder callbacks ops. split; [|split].
  - intros st. apply (usage_step_run callbacks ops st).
  - intros u H. destruct (usage_step_run callbacks ops init) as [_ M].
    destruct (M I) as [Ok _]. unfold usage_ok, getUsage in *. now rewrite H in Ok.
  - intros u H. destruct (usage_step_run callbacks ops init) as [_ M].
    destruct (M I) as [_ F]. apply in_usage_calls in H.
    rewrite Forall_forall in F. now apply F.
Qed.

Lemma X12_witness :
  let u := {| input := Some (num 50); output := Some (num 10);
              cacheRead := None; cacheWrite := None; total := None |} in
  meaningful u /\
  getUsage (fst (run all_callbacks [Feed (lit "x"); Flush]
                   (fst (run all_callbacks test_session init)))) <> None.
Proof.
  intros u. split.
  - apply (proj1 (proj2 (X12_usage_is_kept_and_meaningful
                           ecma_decoder all_callbacks test_session)) u).
    vm_compute. reflexivity.
  - apply (proj1 (X12_usage_is_kept_and_meaningful
                    ecma_decoder all_callbacks [Feed (lit "x"); Flush])).
    vm_compute. discriminate.
Defined.

(** X13. Last write wins: a result line whose usage object converts to a
    record stores that record, whatever was stored before, and hands it to
    the usage observer once. *)
Theorem X13_usage_is_overwritten :
  forall (decoder : JsonDecoder) (callbacks : StreamJsonCallbacks)
         (st : State) (line : jsstring) (parsed raw : JsRecord) (u : CliUsage),
    event_of line = Some parsed ->
    get parsed (lit "type") = Some (JString (lit "result")) ->
    get parsed (lit "usage") = Some (JObject raw) ->
    toUsage raw = Some u ->
    getUsage (fst (processLine callbacks line st)) = Some u /\
    usage_calls (snd (processLine callbacks line st)) =
      delivered (onUsage callbacks) [u].
Proof.
  intros decoder callbacks st line parsed raw u He Ht Hu Hn.
  rewrite processLine_effects, He, usage_calls_effects.
  unfold record_effects, getUsage, new_usage, usage_notified. cbn [fst usage].
  rewrite (event_type_result _ Ht), Hu. cbn [asRecord]. rewrite Hn.
  split; reflexivity.
Qed.

Lemma X13_witness :
  let st := fst (feed all_callbacks
                   (line "{'type':'result','usage':{'input_tokens':5}}") init) in
  let l := js "{'type':'result','usage':{'outputTokens':9}}" in
  let u := {| input := None; output := Some (num 9); cacheRead := None;
              cacheWrite := None; total := None |} in
  getUsage (fst (processLine all_callbacks l st)) = Some u /\
  usage_calls (snd (processLine all_callbacks l st)) =
    delivered (onUsage all_callbacks) [u].
Proof.
  intros st l u.
  refine (X13_usage_is_overwritten ecma_decoder all_callbacks st l
            [(lit "type", JString (lit "result"));
             (lit "usage", JObject [(lit "outputTokens", JNumber (num 9))])]
            [(lit "outputTokens", JNumber (num 9))] u _ _ _ _);
    vm_compute; reflexivity.
Defined.

Lemma usage_change_needs_result (parsed : JsRecord) (st : State) :
  new_usage parsed st <> usage st \/ usage_notified parsed st <> [] ->
  is_result parsed = true /\
  exists raw, get parsed (lit "usage") = Some (JObject raw).
Proof.
  unfold new_usage, usage_notified.
  destruct (is_result parsed); [|intros [H|H]; congruence].
  destruct (get parsed (lit "usage")) as [[| | | | |raw]|]; cbn [asRecord];
    try (intros [H|H]; congruence).
  intros _. split; [reflexivity | now exists raw].
Qed.

(** X14. The usage record and its observer are touched only by a result line
    that carries a usage object: if processing a line changes the stored
    record or calls the usage observer, the line is a record of type
    [result] whose [usage] field is a record. *)
Theorem X14_usage_comes_from_result_lines :
  forall (decoder : JsonDecoder) (callbacks : StreamJsonCallbacks)
         (line : jsstring) (st : State),
    getUsage (fst (processLine callbacks line st)) <> getUsage st \/
    usage_calls (snd (processLine callbacks line st)) <> [] ->
    exists parsed raw,
      event_of line = Some parsed /\
      get parsed (lit "type") = Some (JString (lit "result")) /\
      get parsed (lit "usage") = Some (JObject raw).
Proof.
  intros decoder callbacks line st. rewrite processLine_effects.
  destruct (event_of line) as [parsed|]; [|intros [H|H]; now elim H].
  rewrite usage_calls_effects. unfold getUsage, record_effects. cbn [fst usage].
  intros H.
  destruct (usage_change_needs_result parsed st) as (R & raw & U).
  - destruct H as [H|H]; [now left | right].
    intros E. apply H. rewrite E. now destruct (onUsage callbacks).
  - exists parsed, raw. repeat split; auto. now apply is_result_field.
Qed.

Lemma X14_witness :
  let l := js "{'type':'result','usage':{'total':12}}" in
  exists parsed raw,
    event_of l = Some parsed /\
    get parsed (lit "type") = Some (JString (lit "result")) /\
    get parsed (lit "usage") = Some (JObject raw).
Proof.
  intros l.
  apply (X14_usage_comes_from_result_lines ecma_decoder all_callbacks l init).
  left. vm_compute. discriminate.
Defined.

(** ** The session id, by kind of event *)

(** X15. The session id is established only by a [system] or [result] event,
    only while none is set, and only from a string [session_id] field: if
    processing a line changes the session id, the line is such an event and
    the state had no session id. *)
Theorem X15_session_id_comes_from_system_or_result :
  forall (decoder : JsonDecoder) (callbacks : StreamJsonCallbacks)
         (line : jsstring) (st : State),
    getSessionId (fst (processLine callbacks line st)) <> getSessionId st ->
    no_sessionId st = true /\
    exists parsed raw,
      event_of line = Some parsed /\
      (get parsed (lit "type") = Some (JString (lit "system")) \/
       get parsed (lit "type") = Some (JString (lit "result"))) /\
      get parsed (lit "session_id") = Some (JString raw) /\
      getSessionId (fst (processLine callbacks line st)) = Some (trim raw).
Proof.
  intros decoder callbacks line st H.
  pose proof (processLine_session callbacks line st) as P. cbv zeta in P.
  unfold getSessionId in *.
  destruct (event_of line) as [parsed|]; destruct P as [E _]; [|congruence].
  destruct (new_session_id parsed st) as [id|] eqn:N; [|congruence].
  unfold new_session_id in N.
  destruct (is_system parsed || is_result parsed) eqn:K; [|discriminate].
  destruct (no_sessionId st); [|discriminate]. cbn [andb] in N.
  split; [reflexivity|].
  apply session_id_of_trimmed in N as (raw & G & -> & _).
  exists parsed, raw. repeat split; auto.
  apply orb_true_iff in K as [K|K].
  - left. apply event_type_string; [now apply is_system_type | discriminate].
  - right. now apply is_result_field.
Qed.

Lemma X15_witness :
  let l := js "{'type':'system','subtype':'init','session_id':'abc-123'}" in
  no_sessionId init = true /\
  exists parsed raw,
    event_of l = Some parsed /\
    (get parsed (lit "type") = Some (JString (lit "system")) \/
     get parsed (lit "type") = Some (JString (lit "result"))) /\
    get parsed (lit "session_id") = Some (JString raw) /\
    getSessionId (fst (processLine all_callbacks l init)) = Some (trim raw).
Proof.
  intros l.
  apply (X15_session_id_comes_from_system_or_result ecma_decoder all_callbacks l init).
  vm_compute. discriminate.
Defined.

(** ** The calls made for one line *)

Lemma delivered_length {A : Type} (present : bool) (l : list A) :
  List.length (delivered present l) <= List.length l.
Proof. destruct present; simpl; lia. Qed.

Lemma option_list_length {A : Type} (o : option A) :
  List.length (option_list o) <= 1.
Proof. destruct o; simpl; lia. Qed.

Lemma new_fragments_length (parsed : JsRecord) (st : State) :
  List.length (new_fragments parsed st) <= 1.
Proof.
  unfold new_fragments. destruct (text_delta_of parsed); [simpl; lia|].
  destruct (is_result parsed); [|simpl; lia].
  destruct (fallback_fragments_cases parsed st) as [->|[t ->]]; simpl; lia.
Qed.

Lemma usage_notified_length (parsed : JsRecord) (st : State) :
  List.length (usage_notified parsed st) <= 1.
Proof.
  unfold usage_notified. destruct (is_result parsed); [|simpl; lia].
  destruct (asRecord (get parsed (lit "usage"))); [|simpl; lia].
  apply option_list_length.
Qed.

Lemma errors_reported_length (parsed : JsRecord) :
  List.length (errors_reported parsed) <= 1.
Proof.
  unfold errors_reported. destruct (is_result parsed); [|simpl; lia].
  apply option_list_length.
Qed.

(** X16. One line calls each observer at most once, and the calls come in a
    fixed order: tool use, then session id, then usage, then text, then
    error. *)
Theorem X16_calls_of_one_line :
  forall (decoder : JsonDecoder) (callbacks : StreamJsonCallbacks)
         (line : jsstring) (st : State),
    let calls := snd (processLine callbacks line st) in
    calls = map OnToolUse (tool_calls calls) ++ map OnSessionId (session_calls calls)
            ++ map OnUsage (usage_calls calls) ++ map OnText (text_calls calls)
            ++ map OnError (error_calls calls) /\
    List.length (tool_calls calls) <= 1 /\
    List.length (session_calls calls) <= 1 /\
    List.length (usage_calls calls) <= 1 /\
    List.length (text_calls calls) <= 1 /\
    List.length (error_calls calls) <= 1.
Proof.
  intros decoder callbacks line st calls. unfold calls.
  rewrite processLine_effects. destruct (event_of line) as [parsed|].
  - rewrite tool_calls_effects, session_calls_effects, usage_calls_effects,
      text_calls_effects, error_calls_effects.
    split; [reflexivity|].
    repeat split; (eapply Nat.le_trans; [apply delivered_length|]).
    + apply option_list_length.
    + apply option_list_length.
    + apply usage_notified_length.
    + apply new_fragments_length.
    + apply errors_reported_length.
  - simpl. repeat split; lia.
Qed.

(** X17. A [system] event touches nothing but the session id: the buffer,
    the collected text and the usage record stay as they are, and no
    tool-use, usage, text or error observer is called, whatever other fields
    the event carries; when a session id is already set the event does
    nothing at all. *)
Theorem X17_system_event :
  forall (decoder : JsonDecoder) (callbacks : StreamJsonCallbacks)
         (line : jsstring) (parsed : JsRecord) (st : State),
    event_of line = Some parsed ->
    get parsed (lit "type") = Some (JString (lit "system")) ->
    let r := processLine callbacks line st in
    buffer (fst r) = buffer st /\
    collectedTextParts (fst r) = collectedTextParts st /\
    getUsage (fst r) = getUsage st /\
    tool_calls (snd r) = [] /\ usage_calls (snd r) = [] /\
    text_calls (snd r) = [] /\ error_calls (snd r) = [] /\
    (no_sessionId st = false -> r = (st, [])).
Proof.
  intros decoder callbacks line parsed st He Ht r. unfold r.
  pose proof (event_type_system _ Ht) as Y.
  destruct (is_system_excludes _ Y) as (D & T & R).
  split; [|split; [|split; [|split; [|split; [|split; [|split]]]]]].
  - rewrite processLine_effects, He. reflexivity.
  - rewrite processLine_effects, He. unfold record_effects, new_fragments.
    cbn [fst collectedTextParts]. now rewrite D, R, app_nil_r.
  - rewrite processLine_effects, He. unfold record_effects, new_usage, getUsage.
    cbn [fst usage]. now rewrite R.
  - rewrite processLine_effects, He, tool_calls_effects, T.
    now destruct (onToolUse callbacks).
  - rewrite processLine_effects, He, usage_calls_effects. unfold usage_notified.
    rewrite R. now destruct (onUsage callbacks).
  - rewrite processLine_effects, He, text_calls_effects. unfold new_fragments.
    rewrite D, R. now destruct (onText callbacks).
  - rewrite processLine_effects, He, error_calls_effects. unfold errors_reported.
    rewrite R. now destruct (onError callbacks).
  - intros N. rewrite processLine_event, He, processRecord_cases, D, T, Y, N.
    reflexivity.
Qed.

Lemma X17_witness :
  let st := fst (feed all_callbacks
                   (line "{'type':'system','session_id':'first'}") init) in
  let l := js "{'type':'system','session_id':'second','result':'r','usage':{'total':3}}" in
  processLine all_callbacks l st = (st, []).
Proof.
  intros st l.
  refine (proj2 (proj2 (proj2 (proj2 (proj2 (proj2 (proj2
            (X17_system_event ecma_decoder all_callbacks l
               [(lit "type", JString (lit "system"));
                (lit "session_id", JString (lit "second"));
                (lit "result", JString (lit "r"));
                (lit "usage", JObject [(lit "total", JNumber (num 3))])]
               st _ _))))))) _); vm_compute; reflexivity.
Defined.

(** X18. An error result with no text collected before it is both collected
    and reported: when [is_error] is [true], [result] is a string with a
    non-empty trimmed value and nothing was collected so far, the string
    becomes the accumulated text, the text observer is called with it and
    the error observer is called with it. *)
Theorem X18_error_result_is_also_collected :
  forall (decoder : JsonDecoder) (callbacks : StreamJsonCallbacks)
         (line : jsstring) (parsed : JsRecord) (message : jsstring) (st : State),
    event_of line = Some parsed ->
    get parsed (lit "type") = Some (JString (lit "result")) ->
    get parsed (lit "is_error") = Some (JBool true) ->
    get parsed (lit "result") = Some (JString message) ->
    trim message <> [] ->
    collectedTextParts st = [] ->
    getCollectedText (fst (processLine callbacks line st)) = message /\
    text_calls (snd (processLine callbacks line st)) =
      delivered (onText callbacks) [message] /\
    error_calls (snd (processLine callbacks line st)) =
      delivered (onError callbacks) [message].
Proof.
  intros decoder callbacks line parsed message st He Ht Hi Hr Hm Hp.
  pose proof (event_type_result _ Ht) as R.
  assert (F : new_fragments parsed st = [message]).
  { rewrite (new_fragments_result _ st R). now apply fallback_fragments_one. }
  rewrite processLine_effects, He, text_calls_effects, error_calls_effects, F.
  unfold record_effects, getCollectedText, errors_reported.
  cbn [fst collectedTextParts]. rewrite F, Hp, R.
  rewrite (proj2 (error_message_fields parsed message) (conj Hi Hr)).
  repeat split. simpl. apply app_nil_r.
Qed.

Lemma X18_witness :
  let l := js "{'type':'result','subtype':'error','session_id':'s','result':'Something went wrong','is_error':true}" in
  getCollectedText (fst (processLine all_callbacks l init)) = lit "Something went wrong" /\
  text_calls (snd (processLine all_callbacks l init)) =
    delivered (onText all_callbacks) [lit "Something went wrong"] /\
  error_calls (snd (processLine all_callbacks l init)) =
    delivered (onError all_callbacks) [lit "Something went wrong"].
Proof.
  intros l.
  refine (X18_error_result_is_also_collected ecma_decoder all_callbacks l
            [(lit "type", JString (lit "result"));
             (lit "subtype", JString (lit "error"));
             (lit "session_id", JString (lit "s"));
             (lit "result", JString (lit "Something went wrong"));
             (lit "is_error", JBool true)]
            (lit "Something went wrong") init _ _ _ _ _ _);
    vm_compute; try reflexivity; discriminate.
Defined.
